(** * SQLAgent: a shallow embedding of [mindsdb/interfaces/skills/sql_agent.py]

    The development follows the Python module top-down:

    - [Py]        the fragment of Python's data model the module relies on
                  (exceptions, [str]/[repr], [strip], [join], [sorted],
                  iteration, insertion-ordered dictionaries);
    - [Sha256]    [hashlib.sha256(...).hexdigest()] (FIPS 180-4);
    - [Ident]     [mindsdb_sql.parser.ast.Identifier] as far as the agent
                  uses it (its [parts], its constructor from a path string and
                  its rendering);
    - [Externals] the collaborators the agent only calls (SQL parser and
                  traversal, command executor, data hub, pandas);
    - [Agent]     the methods of [SQLAgent], one definition per method, in an
                  exception-and-state monad over the world the agent mutates
                  (the cache and the executor);
    - [Toy]       one small concrete instance of the collaborators;
    - the properties.

    Conventions.  A Python [str] is a [string]; a character is a code point
    below 256, so [encode] is UTF-8 restricted to that range.  A Python
    exception is a class together with the text [str(e)] yields.  Calls to the
    logger change no result and are left out.  [hashlib], [mindsdb_sql] and
    [pandas] are libraries, not code of the module: the first is embedded from
    its standard, the [Identifier] class from its behaviour on path strings,
    and the rest is an interface the methods are parametrized by. *)

From Stdlib Require Import ZArith List String Ascii Bool Lia Permutation.
From Stdlib Require Import DecimalString.
From stdpp Require Import base gmap strings sorting.

Set Warnings "-register-all".

Import ListNotations.
Local Open Scope string_scope.
Local Open Scope Z_scope.

(* ===================================================================== *)
(** * Python data *)
(* ===================================================================== *)

Module Py.

(** ** Exceptions *)

Inductive exn_class : Type :=
| ValueError
| TypeError
| IndexError
| AssertionError
| AttributeError
| OtherError (name : string).

(** [exn_msg] is what [str(e)] (and so [f"{e}"]) gives. *)
Record exn : Type := Exn { exn_cls : exn_class; exn_msg : string }.

Inductive Result (A : Type) : Type :=
| Ok (a : A)
| Err (e : exn).
Arguments Ok {A} a.
Arguments Err {A} e.

Definition rbind {A B} (r : Result A) (k : A -> Result B) : Result B :=
  match r with
  | Ok a => k a
  | Err e => Err e
  end.

Fixpoint rmapM {A B} (f : A -> Result B) (l : list A) : Result (list B) :=
  match l with
  | [] => Ok []
  | x :: l' =>
      rbind (f x) (fun y => rbind (rmapM f l') (fun ys => Ok (y :: ys)))
  end.

(** ** Characters and strings *)

Definition dquote : ascii := "034"%char.
Definition squote : ascii := "039"%char.
Definition backtick : ascii := "096"%char.
Definition backslash : ascii := "092"%char.
Definition LF : ascii := "010"%char.
Definition CR : ascii := "013"%char.
Definition TAB : ascii := "009"%char.

Definition code (c : ascii) : Z := Z.of_N (N_of_ascii c).

Definition str1 (c : ascii) : string := String c EmptyString.

(** [sep.join(items)] *)
Definition join (sep : string) (items : list string) : string :=
  String.concat sep items.

Definition is_empty (s : string) : bool :=
  match s with EmptyString => true | _ => false end.

(** [c in chars] for a character *)
Definition in_chars (chars : string) (c : ascii) : bool :=
  existsb (Ascii.eqb c) (list_ascii_of_string chars).

(** [s.lstrip(chars)], [s.rstrip(chars)], [s.strip(chars)] *)
Fixpoint lstrip (chars s : string) : string :=
  match s with
  | EmptyString => EmptyString
  | String c r => if in_chars chars c then lstrip chars r else s
  end.

Fixpoint rstrip (chars s : string) : string :=
  match s with
  | EmptyString => EmptyString
  | String c r =>
      let r' := rstrip chars r in
      if is_empty r' && in_chars chars c then EmptyString else String c r'
  end.

Definition strip (chars s : string) : string := rstrip chars (lstrip chars s).

(** [x in l] for a list of strings *)
Definition str_in (x : string) (l : list string) : bool :=
  existsb (String.eqb x) l.

(** [s.startswith(p)] together with the remainder *)
Fixpoint drop_prefix (p s : string) : option string :=
  match p, s with
  | EmptyString, _ => Some s
  | String a p', String b s' => if Ascii.eqb a b then drop_prefix p' s' else None
  | String _ _, EmptyString => None
  end.

(** [sorted(names)] for strings: Python orders [str] lexicographically by
    code point, which is [String.leb].  The order is total and antisymmetric,
    so the sorted list does not depend on the sorting algorithm. *)
Fixpoint insert_sorted (x : string) (l : list string) : list string :=
  match l with
  | [] => [x]
  | y :: l' => if String.leb x y then x :: l else y :: insert_sorted x l'
  end.

Definition sorted (l : list string) : list string :=
  fold_right insert_sorted [] l.

(** [s.encode()]: UTF-8, for code points below 256 *)
Definition encode (s : string) : list Z :=
  flat_map (fun c => let n := code c in
                     if n <? 128 then [n] else [192 + n / 64; 128 + n mod 64])
           (list_ascii_of_string s).

(** ** Numbers as text *)

(** [str(n)] for an [int] *)
Definition str_of_int (n : Z) : string := NilZero.string_of_int (Z.to_int n).

Definition hex_digit (d : Z) : ascii :=
  if d <? 10 then ascii_of_N (Z.to_N (48 + d)) else ascii_of_N (Z.to_N (87 + d)).

(** two lower-case hexadecimal digits of a byte *)
Definition hex2 (b : Z) : string :=
  String (hex_digit ((b / 16) mod 16)) (String (hex_digit (b mod 16)) EmptyString).

(** ** [repr] of a [str] *)

(** [c.isprintable()] for a code point below 256 *)
Definition isprintable (c : ascii) : bool :=
  let n := code c in
  ((32 <=? n) && (n <=? 126)) || ((161 <=? n) && (n <=? 255) && negb (n =? 173)).

Definition repr_char (quote : ascii) (c : ascii) : string :=
  if Ascii.eqb c quote || Ascii.eqb c backslash then String backslash (str1 c)
  else if Ascii.eqb c TAB then String backslash "t"
  else if Ascii.eqb c LF then String backslash "n"
  else if Ascii.eqb c CR then String backslash "r"
  else if isprintable c then str1 c
  else String backslash (String "x" (hex2 (code c))).

Fixpoint flat_map_str (f : ascii -> string) (s : string) : string :=
  match s with
  | EmptyString => EmptyString
  | String c r => f c +:+ flat_map_str f r
  end.

(** Python wraps the text in single quotes, unless it holds a single quote
    and no double quote: then it wraps it in double quotes. *)
Definition repr_str (s : string) : string :=
  let q := if in_chars s squote && negb (in_chars s dquote) then dquote else squote in
  String q (flat_map_str (repr_char q) s +:+ str1 q).

(** ** Values found in result rows *)

Inductive Value : Type :=
| VNone
| VBool (b : bool)
| VInt (n : Z)
| VStr (s : string)
| VList (l : list Value)
(** any other scalar (float, Decimal, datetime, ...): its type name and what
    [str] and [repr] give for it; such an object is not iterable *)
| VOpaque (ty : string) (s r : string).

Fixpoint py_repr (v : Value) : string :=
  match v with
  | VNone => "None"
  | VBool true => "True"
  | VBool false => "False"
  | VInt n => str_of_int n
  | VStr s => repr_str s
  | VList l => "[" +:+ join ", " (map py_repr l) +:+ "]"
  | VOpaque _ _ r => r
  end.

(** [str(v)] *)
Definition py_str (v : Value) : string :=
  match v with
  | VStr s => s
  | VOpaque _ s _ => s
  | _ => py_repr v
  end.

Definition type_name (v : Value) : string :=
  match v with
  | VNone => "NoneType"
  | VBool _ => "bool"
  | VInt _ => "int"
  | VStr _ => "str"
  | VList _ => "list"
  | VOpaque ty _ _ => ty
  end.

Fixpoint chars_of (s : string) : list Value :=
  match s with
  | EmptyString => []
  | String c r => VStr (str1 c) :: chars_of r
  end.

(** [for x in v]: the items the loop sees, or the [TypeError] raised when [v]
    is not iterable *)
Definition py_iter (v : Value) : Result (list Value) :=
  match v with
  | VStr s => Ok (chars_of s)
  | VList l => Ok l
  | _ => Err (Exn TypeError ("'" +:+ type_name v +:+ "' object is not iterable"))
  end.

(** [v == s] for a string literal [s] *)
Definition eq_str (v : Value) (s : string) : bool :=
  match v with
  | VStr s' => String.eqb s' s
  | _ => false
  end.

(** ** Dictionaries with string keys

    A [dict] keeps insertion order, which [values()] exposes: assigning to a
    key that is present keeps its position. *)

Definition dict (V : Type) : Type := list (string * V).

Fixpoint dict_get {V} (d : dict V) (k : string) : option V :=
  match d with
  | [] => None
  | (k', v) :: d' => if String.eqb k' k then Some v else dict_get d' k
  end.

Fixpoint dict_set {V} (d : dict V) (k : string) (v : V) : dict V :=
  match d with
  | [] => [(k, v)]
  | (k', v') :: d' =>
      if String.eqb k' k then (k', v) :: d' else (k', v') :: dict_set d' k v
  end.

Definition dict_has {V} (d : dict V) (k : string) : bool :=
  match dict_get d k with Some _ => true | None => false end.

Definition dict_values {V} (d : dict V) : list V := map snd d.
Definition dict_keys {V} (d : dict V) : list string := map fst d.

End Py.

(* ===================================================================== *)
(** * hashlib.sha256 *)
(* ===================================================================== *)

Module Sha256.

(** 32-bit words are integers reduced modulo 2^32. *)
Definition w32 (x : Z) : Z := x mod 2 ^ 32.
Definition add32 (x y : Z) : Z := w32 (x + y).
Definition rotr (n x : Z) : Z :=
  w32 (Z.lor (Z.shiftr x n) (Z.shiftl x (32 - n))).
Definition shr (n x : Z) : Z := Z.shiftr x n.
Definition not32 (x : Z) : Z := Z.lxor x (2 ^ 32 - 1).

Definition Ch (x y z : Z) : Z := Z.lxor (Z.land x y) (Z.land (not32 x) z).
Definition Maj (x y z : Z) : Z :=
  Z.lxor (Z.lxor (Z.land x y) (Z.land x z)) (Z.land y z).
Definition Sigma0 (x : Z) : Z := Z.lxor (Z.lxor (rotr 2 x) (rotr 13 x)) (rotr 22 x).
Definition Sigma1 (x : Z) : Z := Z.lxor (Z.lxor (rotr 6 x) (rotr 11 x)) (rotr 25 x).
Definition sigma0 (x : Z) : Z := Z.lxor (Z.lxor (rotr 7 x) (rotr 18 x)) (shr 3 x).
Definition sigma1 (x : Z) : Z := Z.lxor (Z.lxor (rotr 17 x) (rotr 19 x)) (shr 10 x).

(** The constants of the standard are defined from the first primes: the
    round constants are the first 32 bits of the fractional parts of their
    cube roots, the initial hash value those of their square roots. *)
Definition is_prime (n : Z) : bool :=
  (1 <? n) && forallb (fun d => negb (n mod d =? 0))
                      (map Z.of_nat (seq 2 (Z.to_nat n - 2))).

Definition primes (count : nat) : list Z :=
  firstn count (List.filter is_prime (map Z.of_nat (seq 2 310))).

(** the integer cube root, built from its bits *)
Definition icbrt (x : Z) : Z :=
  fold_left (fun r b => let c := r + 2 ^ b in if c ^ 3 <=? x then c else r)
            (map Z.of_nat (rev (seq 0 40))) 0.

Definition K : list Z :=
  Eval vm_compute in map (fun p => icbrt (p * 2 ^ 96) mod 2 ^ 32) (primes 64).

Record state : Type :=
  State { ha : Z; hb : Z; hc : Z; hd : Z; he : Z; hf : Z; hg : Z; hh : Z }.

Definition H0 : state :=
  Eval vm_compute in
    match map (fun p => Z.sqrt (p * 2 ^ 64) mod 2 ^ 32) (primes 8) with
    | [a; b; c; d; e; f; g; h] => State a b c d e f g h
    | _ => State 0 0 0 0 0 0 0 0
    end.

Definition be_bytes (n : nat) (x : Z) : list Z :=
  map (fun i => (x / 2 ^ (8 * Z.of_nat i)) mod 256) (rev (seq 0 n)).

(** padding: the byte 0x80, zero bytes up to 56 modulo 64, then the length
    of the message in bits on 8 bytes, big-endian *)
Definition pad (msg : list Z) : list Z :=
  let len := Z.of_nat (List.length msg) in
  let zeros := Z.to_nat ((55 - len) mod 64) in
  msg ++ [0x80] ++ repeat 0 zeros ++ be_bytes 8 (8 * len).

Fixpoint words (bytes : list Z) : list Z :=
  match bytes with
  | b0 :: b1 :: b2 :: b3 :: rest =>
      (((b0 * 256 + b1) * 256 + b2) * 256 + b3) :: words rest
  | _ => []
  end.

Fixpoint blocks (n : nat) (ws : list Z) : list (list Z) :=
  match n with
  | O => []
  | S n' => firstn 16 ws :: blocks n' (skipn 16 ws)
  end.

(** message schedule: [w] holds the words W_0 .. W_(t-1); add [n] more *)
Fixpoint schedule (n : nat) (w : list Z) : list Z :=
  match n with
  | O => w
  | S n' =>
      let t := List.length w in
      let back k := nth (t - k) w 0 in
      schedule n'
        (w ++ [w32 (sigma1 (back 2%nat) + back 7%nat + sigma0 (back 15%nat) + back 16%nat)])
  end.

Definition round (s : state) (kw : Z * Z) : state :=
  let '(k, w) := kw in
  let t1 := w32 (hh s + Sigma1 (he s) + Ch (he s) (hf s) (hg s) + k + w) in
  let t2 := w32 (Sigma0 (ha s) + Maj (ha s) (hb s) (hc s)) in
  State (add32 t1 t2) (ha s) (hb s) (hc s) (add32 (hd s) t1) (he s) (hf s) (hg s).

Definition compress (s : state) (block : list Z) : state :=
  let w := schedule 48 block in
  let s' := fold_left round (combine K w) s in
  State (add32 (ha s) (ha s')) (add32 (hb s) (hb s')) (add32 (hc s) (hc s'))
        (add32 (hd s) (hd s')) (add32 (he s) (he s')) (add32 (hf s) (hf s'))
        (add32 (hg s) (hg s')) (add32 (hh s) (hh s')).

Definition digest (msg : list Z) : state :=
  let p := pad msg in
  fold_left compress (blocks (List.length p / 64) (words p)) H0.

(** eight lower-case hexadecimal digits of a word *)
Definition hex8 (x : Z) : string :=
  string_of_list_ascii
    (map (fun i => Py.hex_digit ((x / 16 ^ Z.of_nat i) mod 16)) (rev (seq 0 8))).

(** [hashlib.sha256(msg).hexdigest()] *)
Definition hexdigest (msg : list Z) : string :=
  let s := digest msg in
  hex8 (ha s) +:+ hex8 (hb s) +:+ hex8 (hc s) +:+ hex8 (hd s) +:+
  hex8 (he s) +:+ hex8 (hf s) +:+ hex8 (hg s) +:+ hex8 (hh s).

End Sha256.

(* ===================================================================== *)
(** * mindsdb_sql.parser.ast.Identifier *)
(* ===================================================================== *)

Module Ident.
Import Py.

(** Only [parts] is read by the agent; an identifier built from a path string
    has no alias. *)
Record Identifier : Type := Ident { parts : list string }.

(** the longest prefix of [s] without the character [c], and what follows *)
Fixpoint span_not (c : ascii) (s : string) : string * string :=
  match s with
  | EmptyString => (EmptyString, EmptyString)
  | String a r =>
      if Ascii.eqb a c then (EmptyString, s)
      else let '(p, q) := span_not c r in (String a p, q)
  end.

(** The successive matches of the pattern
    [(?:(?:(`[^`]+`))|([^.]+))] in [s], as [re.finditer] yields them: at each
    position a back-quoted run is tried first, then a run without a dot; a dot
    that starts no match is skipped.  Every step consumes a character, so
    [String.length s] steps suffice. *)
Fixpoint path_str_matches (fuel : nat) (s : string) : list string :=
  match fuel with
  | O => []
  | S fuel' =>
      match s with
      | EmptyString => []
      | String c r =>
          let quoted :=
            if Ascii.eqb c backtick then
              match span_not backtick r with
              | (String b body, String _ rest) =>
                  Some (String backtick (String b body +:+ str1 backtick), rest)
              | _ => None
              end
            else None in
          match quoted with
          | Some (m, rest) => m :: path_str_matches fuel' rest
          | None =>
              match span_not "." s with
              | (EmptyString, _) => path_str_matches fuel' r
              | (m, rest) => m :: path_str_matches fuel' rest
              end
          end
      end
  end.

(** [path_str_to_parts]: every match with its back-quotes stripped *)
Definition path_str_to_parts (path_str : string) : list string :=
  map (strip (str1 backtick)) (path_str_matches (String.length path_str) path_str).

(** [Identifier(path_str)]; the constructor asserts that it is given
    something. *)
Definition of_path_str (path_str : string) : Result Identifier :=
  if is_empty path_str
  then Err (Exn AssertionError
                "Either path_str or parts must be provided for an Identifier")
  else Ok (Ident (path_str_to_parts path_str)).

Definition is_letter_ (c : ascii) : bool :=
  let n := code c in
  ((97 <=? n) && (n <=? 122)) || ((65 <=? n) && (n <=? 90)) || (n =? 95).

Definition is_word (c : ascii) : bool :=
  let n := code c in is_letter_ c || ((48 <=? n) && (n <=? 57)).

(** [no_wrap_identifier_regex.fullmatch(part)] for [[a-zA-Z_][a-zA-Z_0-9]*] *)
Definition no_wrap (part : string) : bool :=
  match part with
  | EmptyString => false
  | String c r => is_letter_ c && forallb is_word (list_ascii_of_string r)
  end.

Definition upper_char (c : ascii) : ascii :=
  let n := code c in
  if (97 <=? n) && (n <=? 122) then ascii_of_N (Z.to_N (n - 32)) else c.

(** [part.upper()]; it is only taken of parts that [no_wrap] accepts, which
    are ASCII *)
Definition upper (s : string) : string := flat_map_str (fun c => str1 (upper_char c)) s.

(** [parts_to_str]: a part is back-quoted unless it is a plain word that is
    not a reserved word of the SQL dialect; [reserved] is the dialect's
    keyword table, applied to the upper-cased part. *)
Definition parts_to_str (reserved : string -> bool) (ps : list string) : string :=
  join "."
    (map (fun part =>
            if negb (no_wrap part) || reserved (upper part)
            then str1 backtick +:+ part +:+ str1 backtick
            else part) ps).

(** [str(identifier)] *)
Definition to_string (reserved : string -> bool) (i : Identifier) : string :=
  parts_to_str reserved (parts i).

End Ident.

(* ===================================================================== *)
(** * The collaborators *)
(* ===================================================================== *)

Module Externals.
Import Py Ident.

(** A node handed to the callback of [query_traversal], with the [is_table]
    keyword argument of that call. *)
Inductive Node : Type :=
| NIdentifier (i : Identifier)
| NOther.

Record Visit : Type := { v_node : Node; v_is_table : bool }.

(** [ret.data]: the names of [columns] and what [to_lists()] returns *)
Record ResultSet : Type :=
  { rs_columns : list string; rs_rows : list (list Value) }.

(** a column description of the data hub: ['name'] and the optional ['type'] *)
Record Column : Type := { col_name : string; col_type : option string }.

(** What the agent calls and does not define.  The executor and the data hub
    have a state of their own ([Engine]); each may raise. *)
Class Collaborators : Type :=
  { Ast : Type;
    Engine : Type;
    (** [mindsdb_sql.parse_sql] *)
    parse_sql : string -> Result Ast;
    (** the calls [query_traversal] makes to its callback, in order *)
    query_traversal : Ast -> list Visit;
    (** [command_executor.execute_command(ast, database_name=...)] *)
    execute_command : Ast -> string -> Engine -> Result ResultSet * Engine;
    (** [command_executor.session.datahub.get(integration).get_table_columns(name)] *)
    get_table_columns : string -> string -> Engine -> Result (list Column) * Engine;
    (** [str(pd.DataFrame(data, columns=names).describe(include='all'))] *)
    describe : list string -> list (list Value) -> Result string;
    (** the reserved words of the SQL dialect, see [Ident.parts_to_str] *)
    reserved : string -> bool }.

End Externals.

(* ===================================================================== *)
(** * class SQLAgent *)
(* ===================================================================== *)

Module Agent.
Import Py Ident Externals.

(** What the cache holds under a key: the table-list line stores a [set] (and
    may be handed a [list]), the table-info line a [dict] of descriptions. *)
Inductive PyObj : Type :=
| OList (l : list string)
| OSet (s : gset string)
| ODict (d : dict string).

(** [bool(o)] *)
Definition truthy (o : PyObj) : bool :=
  match o with
  | OList [] => false
  | OList (_ :: _) => true
  | OSet s => negb (bool_decide (s = ∅))
  | ODict [] => false
  | ODict (_ :: _) => true
  end.

(** [name in o] *)
Definition obj_has (o : PyObj) (name : string) : bool :=
  match o with
  | OList l => str_in name l
  | OSet s => bool_decide (name ∈ s)
  | ODict d => dict_has d name
  end.

(** the items of [for name in o]; a set is iterated in an order of its own *)
Definition obj_iter (o : PyObj) : list string :=
  match o with
  | OList l => l
  | OSet s => elements s
  | ODict d => dict_keys d
  end.

(** [o[name]] for a string [name] *)
Definition obj_getitem (o : PyObj) (name : string) : Result string :=
  match o with
  | ODict d =>
      match dict_get d name with
      | Some v => Ok v
      | None => Err (Exn (OtherError "KeyError") (repr_str name))
      end
  | OList _ => Err (Exn TypeError "list indices must be integers or slices, not str")
  | OSet _ => Err (Exn TypeError "'set' object is not subscriptable")
  end.

(** [o.values()] *)
Definition obj_values (o : PyObj) : Result (list string) :=
  match o with
  | ODict d => Ok (dict_values d)
  | OList _ => Err (Exn AttributeError "'list' object has no attribute 'values'")
  | OSet _ => Err (Exn AttributeError "'set' object has no attribute 'values'")
  end.

(** The fields [__init__] sets, apart from the collaborators and the cache. *)
Record SQLAgent : Type :=
  { _database : string;
    _sample_rows_in_table_info : Z;
    _tables_to_include : option (list string);
    _tables_to_ignore : list string }.

(** [bool(x)] for an optional list *)
Definition truthy_list {A} (x : option (list A)) : bool :=
  match x with
  | Some (_ :: _) => true
  | _ => false
  end.

Definition __init__ (database : string) (include_tables ignore_tables : option (list string))
    (sample_rows_in_table_info : Z) : SQLAgent :=
  {| _database := database;
     _sample_rows_in_table_info := sample_rows_in_table_info;
     _tables_to_include := include_tables;
     _tables_to_ignore :=
       if truthy_list include_tables then []
       else match ignore_tables with
            | Some l => l
            | None => []
            end |}.

Section Methods.
Context `{C : Collaborators}.

(** What a call can change: the cache object handed to [__init__] (absent
    when [None]; a cache object is truthy, and maps keys to values), the
    executor, with the commands it was given, in order; and what the call
    reads from its surroundings: [str(ctx.company_id)]. *)
Record World : Type :=
  { cache : option (gmap string PyObj);
    engine : Engine;
    calls : list (Ast * string);
    company_id : string }.

Definition set_cache (w : World) (c : option (gmap string PyObj)) : World :=
  {| cache := c; engine := engine w; calls := calls w; company_id := company_id w |}.

Definition set_engine (w : World) (e : Engine) (call : Ast * string) : World :=
  {| cache := cache w; engine := e; calls := calls w ++ [call];
     company_id := company_id w |}.

Definition set_datahub (w : World) (e : Engine) : World :=
  {| cache := cache w; engine := e; calls := calls w; company_id := company_id w |}.

(** A method either returns or raises, and leaves a world behind in both
    cases. *)
Definition M (A : Type) : Type := World -> Result A * World.

Definition ret {A} (a : A) : M A := fun w => (Ok a, w).
Definition raise {A} (e : exn) : M A := fun w => (Err e, w).
Definition bind {A B} (m : M A) (k : A -> M B) : M B :=
  fun w => match m w with
           | (Ok a, w') => k a w'
           | (Err e, w') => (Err e, w')
           end.
Definition lift {A} (r : Result A) : M A := fun w => (r, w).

(** [try: m except Exception as e: h e] *)
Definition try_except {A} (m : M A) (h : exn -> M A) : M A :=
  fun w => match m w with
           | (Ok a, w') => (Ok a, w')
           | (Err e, w') => h e w'
           end.

Fixpoint for_each {A S} (l : list A) (body : S -> A -> M S) (s : S) : M S :=
  match l with
  | [] => ret s
  | x :: l' => bind (body s x) (for_each l' body)
  end.

Notation "x <- m ;; k" := (bind m (fun x => k))
  (at level 100, m at next level, right associativity).

(** what the cache holds under [key], if there is a cache *)
Definition stored (w : World) (key : string) : option PyObj :=
  match cache w with
  | Some c => c !! key
  | None => None
  end.

(** [self._cache.get(key) if self._cache else None] *)
Definition cache_get (key : string) : M (option PyObj) :=
  fun w => (Ok (stored w key), w).

(** [if self._cache: self._cache.set(key, value)] *)
Definition cache_set (key : string) (value : PyObj) : M unit :=
  fun w => (Ok tt, match cache w with
                   | Some c => set_cache w (Some (<[key := value]> c))
                   | None => w
                   end).

Definition get_company_id : M string := fun w => (Ok (company_id w), w).

(** ** [_check_tables] *)

(** The callback: the [ValueError] is built and dropped, there is no
    [raise].  [table not in self._tables_to_include] raises when the list is
    [None]; [node.parts[-1]] raises on an identifier without parts. *)
Definition _check_f (self : SQLAgent) (v : Visit) : Result unit :=
  match v_node v with
  | NIdentifier node =>
      if v_is_table v then
        match last (parts node) with
        | None => Err (Exn IndexError "list index out of range")
        | Some table =>
            match _tables_to_include self with
            | None => Err (Exn TypeError "argument of type 'NoneType' is not iterable")
            | Some include =>
                if negb (str_in table include) then
                  let _unraised :=
                    Exn ValueError ("Table " +:+ table +:+ " not found. Available tables: "
                                    +:+ join ", " include) in
                  Ok tt
                else Ok tt
            end
        end
      else Ok tt
  | NOther => Ok tt
  end.

Fixpoint check_visits (self : SQLAgent) (vs : list Visit) : Result unit :=
  match vs with
  | [] => Ok tt
  | v :: vs' => rbind (_check_f self v) (fun _ => check_visits self vs')
  end.

Definition _check_tables (self : SQLAgent) (ast_query : Ast) : Result unit :=
  check_visits self (query_traversal ast_query).

(** ** [_call_engine] *)

Definition run_executor (ast_query : Ast) (database : string) : M ResultSet :=
  fun w => let '(r, e) := execute_command ast_query database (engine w) in
           (r, set_engine w e (ast_query, database)).

Definition _call_engine (self : SQLAgent) (query : string) (database : option string)
  : M ResultSet :=
  ast_query <- lift (parse_sql (strip (str1 backtick) query)) ;;
  _ <- lift (_check_tables self ast_query) ;;
  let database :=
    match database with
    | None => _database self
    | Some d => d
    end in
  run_executor ast_query database.

(** ** [get_usable_table_names] *)

Definition nl : string := str1 LF.
Definition tab : string := str1 TAB.

(** [lst[0]] *)
Definition first_cell (lst : list Value) : Result Value :=
  match lst with
  | v :: _ => Ok v
  | [] => Err (Exn IndexError "list index out of range")
  end.

(** [[lst[0] for lst in rows if lst[0] != 'information_schema']] *)
Definition first_column (rows : list (list Value)) : Result (list Value) :=
  rbind (rmapM first_cell rows)
        (fun cells => Ok (List.filter (fun v => negb (eq_str v "information_schema")) cells)).

(** The part of [get_usable_table_names] after the two early returns:
    enumerate the databases, list the tables of the configured one, drop the
    ignored names, store the result as a set, return the list. *)
Definition discover_tables (self : SQLAgent) (cache_key : string) : M PyObj :=
  r <- _call_engine self "show databases;" None ;;
  dbs <- lift (first_column (rs_rows r)) ;;
  usable_tables <-
    for_each dbs
      (fun usable_tables db =>
         if negb (eq_str db "mindsdb") && eq_str db (_database self) then
           try_except
             (r <- _call_engine self "show tables" (Some (py_str db)) ;;
              tables <- lift (first_column (rs_rows r)) ;;
              ret (usable_tables ++
                   List.filter (fun table_name => negb (str_in table_name (_tables_to_ignore self)))
                          (map (fun table => py_str db +:+ "." +:+ py_str table) tables))%list)
             (fun _ => ret usable_tables)
         else ret usable_tables)
      [] ;;
  _ <- cache_set cache_key (OSet (list_to_set usable_tables)) ;;
  ret (OList usable_tables).

(** [f'{ctx.company_id}_{self._database}_tables'] *)
Definition tables_key (cid : string) (self : SQLAgent) : string :=
  cid +:+ "_" +:+ _database self +:+ "_tables".

Definition get_usable_table_names (self : SQLAgent) : M PyObj :=
  cid <- get_company_id ;;
  let cache_key := tables_key cid self in
  (* first check cache and return if found *)
  cached_tables <- cache_get cache_key ;;
  let uncached :=
    match _tables_to_include self with
    | Some (t :: ts) => ret (OList (t :: ts))
    | _ => discover_tables self cache_key
    end in
  match cached_tables with
  | Some o => if truthy o then ret o else uncached
  | None => uncached
  end.

(** ** [_resolve_table_names] *)

(** the characters of [table_name.strip(...)]: space, back-quote, double
    quote, single quote, line feed, carriage return *)
Definition strip_chars : string :=
  String " " (String backtick (String dquote (String squote (String LF (String CR ""))))).

(** the lookup index: every table by its last part and by its path; a later
    table replaces an earlier one under the same key *)
Fixpoint build_index (all_tables : list Identifier)
    (tables_idx : gmap (list string) Identifier)
  : Result (gmap (list string) Identifier) :=
  match all_tables with
  | [] => Ok tables_idx
  | table :: rest =>
      match last (parts table) with
      | None => Err (Exn IndexError "list index out of range")
      | Some name =>
          build_index rest (<[parts table := table]> (<[[name] := table]> tables_idx))
      end
  end.

(** [ValueError(f"Table {table} not found in database")] *)
Definition not_found (table : Identifier) : exn :=
  Exn ValueError ("Table " +:+ to_string reserved table +:+ " not found in database").

(** one turn of the loop over [table_names] *)
Definition resolve_one (tables_idx : gmap (list string) Identifier)
    (table_name : string) : Result Identifier :=
  let table_name := strip strip_chars table_name in
  rbind (of_path_str table_name) (fun table =>
  (* resolved table *)
  match tables_idx !! parts table with
  | None => Err (not_found table)
  | Some table2 => Ok table2
  end).

Definition _resolve_table_names (table_names : list string) (all_tables : list Identifier)
  : Result (list Identifier) :=
  rbind (build_index all_tables ∅) (fun tables_idx =>
  rmapM (resolve_one tables_idx) table_names).

(** ** [_generate_cache_key] *)

Definition _generate_cache_key (self : SQLAgent) (table_names : option (list string))
  : M string :=
  cid <- get_company_id ;;
  (* Base part of the cache key *)
  let base_key := cid +:+ "_" +:+ _database self +:+ "_table_info" in
  let full_key :=
    match table_names with
    | Some (n :: ns) => base_key +:+ "_" +:+ join "_" (sorted (n :: ns))
    | _ => base_key
    end in
  ret (Sha256.hexdigest (encode full_key)).

(** ** [_get_info_from_cache] *)

(** [{name: cached_info[name] for name in table_names}] *)
Fixpoint pick (cached_info : PyObj) (table_names : list string) (acc : dict string)
  : Result (dict string) :=
  match table_names with
  | [] => Ok acc
  | name :: rest =>
      rbind (obj_getitem cached_info name) (fun v => pick cached_info rest (dict_set acc name v))
  end.

Definition _get_info_from_cache (cache_key : string) (table_names : option (list string))
  : M (option PyObj) :=
  cached_info <- cache_get cache_key ;;
  (* [return cached_info if not table_names else {}] *)
  let otherwise :=
    if truthy_list table_names then ret (Some (ODict [])) else ret cached_info in
  match cached_info, table_names with
  | Some info, Some (n :: ns) =>
      if truthy info then
        (* Verify all requested tables are in cache *)
        let missing_tables := List.filter (fun name => negb (obj_has info name)) (n :: ns) in
        match missing_tables with
        | [] => d <- lift (pick info (n :: ns) []) ;; ret (Some (ODict d))
        | _ :: _ => otherwise
        end
      else otherwise
  | _, _ => otherwise
  end.

Definition _update_cache (cache_key : string) (tables_info : dict string) : M unit :=
  cache_set cache_key (ODict tables_info).

(** ** [_get_sample_rows] *)

(** [str(i) if len(str(i)) < 100 else str[:100] + '...']: the second branch
    subscripts the type [str] itself, which raises. *)
Definition subscript_error : exn := Exn TypeError "type 'str' is not subscriptable".

Definition sample_cell (i : Value) : Result string :=
  if (String.length (py_str i) <? 100)%nat then Ok (py_str i)
  else Err subscript_error.

(** [f"select {','.join(fields)} from {table} limit {n};"] *)
Definition sample_command (self : SQLAgent) (table : string) (fields : list string)
  : string :=
  "select " +:+ join "," fields +:+ " from " +:+ table +:+ " limit "
  +:+ str_of_int (_sample_rows_in_table_info self) +:+ ";".

Definition placeholder : string :=
  nl +:+ tab +:+ " [error] Couldn't retrieve sample rows!".

Definition _get_sample_rows (self : SQLAgent) (table : string) (fields : list string)
  : M string :=
  let command := sample_command self table fields in
  try_except
    (r <- _call_engine self command None ;;
     sample_rows <- lift (rmapM (rmapM sample_cell) (rs_rows r)) ;;
     ret (nl +:+ join nl (map (join tab) sample_rows)))
    (fun _ => ret placeholder).

(** ** [_get_single_table_info] *)

(** [table.parts[-2:]] unpacked into two names *)
Definition last_two (l : list string) : option (string * string) :=
  match rev l with
  | b :: a :: _ => Some (a, b)
  | _ => None
  end.

Definition run_datahub (integration table_name : string) : M (list Column) :=
  fun w => let '(r, e) := get_table_columns integration table_name (engine w) in
           (r, set_datahub w e).

Definition _get_single_table_info (self : SQLAgent) (table : Identifier) : M string :=
  if (List.length (parts table) <? 2)%nat then
    raise (Exn ValueError ("Database is required for table: " +:+ to_string reserved table))
  else
    match last_two (parts table) with
    | None => raise (Exn ValueError "not enough values to unpack (expected 2, got 1)")
    | Some (integration, table_name) =>
        let table_str := to_string reserved table in
        columns <- run_datahub integration table_name ;;
        let fields := map col_name columns in
        let dtypes := map (fun c => default "" (col_type c)) columns in
        sample <- _get_sample_rows self table_str fields ;;
        ret ("Table named `" +:+ table_name +:+ "`" +:+ nl
             +:+ nl +:+ "/* Sample with first "
             +:+ str_of_int (_sample_rows_in_table_info self)
             +:+ " rows from table " +:+ table_str +:+ ":" +:+ nl
             +:+ join tab fields
             +:+ sample +:+ nl +:+ "*/"
             +:+ nl +:+ "Column data types: "
             +:+ join ("," +:+ tab)
                   (map (fun fd => "`" +:+ fst fd +:+ "` : `" +:+ snd fd +:+ "`")
                        (combine fields dtypes))
             +:+ nl)
    end.

(** ** [_fetch_table_info] *)

Definition _fetch_table_info (self : SQLAgent) (table_names : option (list string))
  : M (dict string) :=
  usable <- get_usable_table_names self ;;
  all_tables <- lift (rmapM of_path_str (obj_iter usable)) ;;
  all_tables <-
    match table_names with
    | Some names => lift (_resolve_table_names names all_tables)
    | None => ret all_tables
    end ;;
  for_each all_tables
    (fun tables_info table =>
       info <- _get_single_table_info self table ;;
       match last (parts table) with
       | None => raise (Exn IndexError "list index out of range")
       | Some name => ret (dict_set tables_info name info)
       end)
    [].

(** ** [get_table_info] *)

Definition get_table_info (self : SQLAgent) (table_names : option (list string))
  : M string :=
  try_except
    (cache_key <- _generate_cache_key self table_names ;;
     tables_info <- _get_info_from_cache cache_key table_names ;;
     tables_info <-
       match tables_info with
       | Some o =>
           if truthy o then ret o
           else (fetched <- _fetch_table_info self table_names ;;
                 _ <- _update_cache cache_key fetched ;;
                 ret (ODict fetched))
       | None =>
           fetched <- _fetch_table_info self table_names ;;
           _ <- _update_cache cache_key fetched ;;
           ret (ODict fetched)
       end ;;
     values <- lift (obj_values tables_info) ;;
     ret (join (nl +:+ nl) values))
    (fun e => ret ("Error fetching table info: " +:+ exn_msg e)).

(** ** [query] *)

(** [re.sub(r'```(sql)?', '', query)] *)
Fixpoint _clean_query (query : string) : string :=
  match query with
  | EmptyString => EmptyString
  | String c r =>
      match r with
      | String c1 (String c2 r2) =>
          if Ascii.eqb c backtick && Ascii.eqb c1 backtick && Ascii.eqb c2 backtick then
            match r2 with
            | String s0 (String s1 (String s2 r3)) =>
                if Ascii.eqb s0 "s" && Ascii.eqb s1 "q" && Ascii.eqb s2 "l"
                then _clean_query r3 else _clean_query r2
            | _ => _clean_query r2
            end
          else String c (_clean_query r)
      | _ => String c (_clean_query r)
      end
  end.

(** ['\n'.join(['\t'.join([str(value) for value in row]) for row in result])];
    [result] and each [row] are whatever the caller passes, and are iterated. *)
Definition _tidy (result : Value) : Result string :=
  rbind (py_iter result) (fun rows =>
  rbind (rmapM (fun row => rbind (py_iter row) (fun values =>
                           Ok (join tab (map py_str values)))) rows) (fun lines =>
  Ok (join nl lines))).

Definition limit_rows : nat := 30.

Definition _repr_result (r : ResultSet) : Result string :=
  let columns_str := join ", " (map repr_str (rs_columns r)) in
  let res := "Output columns: " +:+ columns_str +:+ nl in
  let data := rs_rows r in
  rbind
    (if (limit_rows <? List.length data)%nat then
       rbind (describe (rs_columns r) data) (fun description =>
       Ok (res +:+ "Result has " +:+ str_of_int (Z.of_nat (List.length data))
           +:+ " rows. Description of data:" +:+ nl
           +:+ description +:+ nl +:+ nl
           +:+ "First " +:+ str_of_int (Z.of_nat limit_rows) +:+ " rows:" +:+ nl))
     else Ok (res +:+ "Result:" +:+ nl))
    (fun res =>
  rbind (_tidy (VList (map VList (firstn limit_rows data)))) (fun rows =>
  Ok (res +:+ rows))).

Definition query (self : SQLAgent) (command : string) (fetch : string) : M string :=
  r <- _call_engine self (_clean_query command) None ;;
  if String.eqb fetch "all" then lift (_repr_result r)
  else if String.eqb fetch "one" then
    match rs_rows r with
    | [] => raise (Exn IndexError "list index out of range")
    | row :: _ => lift (_tidy (VList row))
    end
  else raise (Exn ValueError "Fetch parameter must be either 'one' or 'all'").

Definition get_table_info_safe (self : SQLAgent) (table_names : option (list string))
  : M string :=
  try_except (get_table_info self table_names)
             (fun e => ret ("Error: " +:+ exn_msg e)).

Definition query_safe (self : SQLAgent) (command : string) (fetch : string) : M string :=
  try_except (query self command fetch)
             (fun e => ret ("Error: " +:+ exn_msg e)).

(** ** Vocabulary of the properties *)

(** An identifier node has at least one part, as the constructor of
    [Identifier] asserts. *)
Definition wf_visit (v : Visit) : Prop :=
  match v_node v with
  | NIdentifier i => parts i <> []
  | NOther => True
  end.

(** The callback is reached with [is_table] set, on an identifier node. *)
Definition table_ref (v : Visit) : Prop :=
  v_is_table v = true /\ exists i, v_node v = NIdentifier i.

(** the same, with a last part outside the list [include] *)
Definition table_ref_outside (include : list string) (v : Visit) : Prop :=
  v_is_table v = true /\
  exists i table, v_node v = NIdentifier i /\ last (parts i) = Some table
                  /\ str_in table include = false.

(** a command that parses, and reaches the check with a table reference *)
Definition parses_with_table (query : string) : Prop :=
  exists ast, parse_sql (strip (str1 backtick) query) = Ok ast
    /\ Forall wf_visit (query_traversal ast) /\ Exists table_ref (query_traversal ast).

(** a command whose parse, when there is one, reaches the check with a table
    reference *)
Definition refers_to_a_table (query : string) : Prop :=
  forall ast, parse_sql (strip (str1 backtick) query) = Ok ast ->
    Forall wf_visit (query_traversal ast) /\ Exists table_ref (query_traversal ast).

Definition none_not_iterable : exn :=
  Exn TypeError "argument of type 'NoneType' is not iterable".

(** one row as a line: the [str] of its values, joined by tabs *)
Definition row_line (row : list Value) : string := join tab (map py_str row).

(** the first line of a rendered result *)
Definition columns_line (r : ResultSet) : string :=
  "Output columns: " +:+ join ", " (map repr_str (rs_columns r)) +:+ nl.

(** the identifier that a name denotes once stripped *)
Definition normalized (table_name : string) : Identifier :=
  Ident (path_str_to_parts (strip strip_chars table_name)).

(** a call that leaves a cache object where there was one *)
Definition keeps_cache {A} (m : M A) : Prop :=
  forall w r w', m w = (r, w') -> is_Some (cache w) -> is_Some (cache w').

(** every character of [s] is one that [strip] removes *)
Definition all_in (chars s : string) : Prop :=
  Forall (fun c => in_chars chars c = true) (list_ascii_of_string s).

(** [sub in s] *)
Fixpoint contains (sub s : string) : bool :=
  match drop_prefix sub s with
  | Some _ => true
  | None =>
      match s with
      | EmptyString => false
      | String _ r => contains sub r
      end
  end.

(** one turn of the loop of [get_usable_table_names] over the databases, as
    [discover_tables] writes it *)
Definition discover_step (self : SQLAgent) (usable_tables : list string) (db : Value)
  : M (list string) :=
  if negb (eq_str db "mindsdb") && eq_str db (_database self) then
    try_except
      (r <- _call_engine self "show tables" (Some (py_str db)) ;;
       tables <- lift (first_column (rs_rows r)) ;;
       ret (usable_tables ++
            List.filter (fun table_name => negb (str_in table_name (_tables_to_ignore self)))
                        (map (fun table => py_str db +:+ "." +:+ py_str table) tables))%list)
      (fun _ => ret usable_tables)
  else ret usable_tables.

(** the keys under which the lookup index of [_resolve_table_names] holds
    the table [t]: its last part alone, and its path *)
Definition key_matches (k : list string) (t : Identifier) : bool :=
  bool_decide (k = parts t)
  || match last (parts t) with
     | Some name => bool_decide (k = [name])
     | None => false
     end.

(** the last entry of the catalog held under the key [k] *)
Definition last_match (catalog : list Identifier) (k : list string) : option Identifier :=
  List.find (key_matches k) (rev catalog).

(** one name resolved as the index does it: the last entry of the catalog
    held under the parts of the stripped name *)
Definition resolve_by_last_match (catalog : list Identifier) (table_name : string)
  : Result Identifier :=
  rbind (of_path_str (strip strip_chars table_name)) (fun table =>
  match last_match catalog (parts table) with
  | Some entry => Ok entry
  | None => Err (not_found table)
  end).

(** [ValueError(f"Database is required for table: {table}")] *)
Definition database_required (table : Identifier) : exn :=
  Exn ValueError ("Database is required for table: " +:+ to_string reserved table).

(** [table.parts[-1]], the key of a table in the fetched mapping *)
Definition simple_name (table : Identifier) : string :=
  default "" (last (parts table)).

(** the text [_get_single_table_info] builds from the columns the data hub
    gave and the sample *)
Definition description_text (self : SQLAgent) (table_name table_str : string)
    (columns : list Column) (sample : string) : string :=
  let fields := map col_name columns in
  let dtypes := map (fun c => default "" (col_type c)) columns in
  "Table named `" +:+ table_name +:+ "`" +:+ nl
  +:+ nl +:+ "/* Sample with first "
  +:+ str_of_int (_sample_rows_in_table_info self)
  +:+ " rows from table " +:+ table_str +:+ ":" +:+ nl
  +:+ join tab fields
  +:+ sample +:+ nl +:+ "*/"
  +:+ nl +:+ "Column data types: "
  +:+ join ("," +:+ tab)
        (map (fun fd => "`" +:+ fst fd +:+ "` : `" +:+ snd fd +:+ "`")
             (combine fields dtypes))
  +:+ nl.

(** Every table of the list is described in turn: it has a database part,
    the data hub gives its columns, its rows are sampled, and its text is
    built from both; the world goes from one description to the next. *)
Inductive describes_all (self : SQLAgent)
  : list Identifier -> World -> list string -> World -> Prop :=
| describes_nil (w : World) : describes_all self [] w [] w
| describes_cons (table : Identifier) (tables : list Identifier) (w : World)
    (integration table_name : string) (columns : list Column) (e : Engine)
    (sample : string) (w1 : World) (infos : list string) (w2 : World) :
    last_two (parts table) = Some (integration, table_name) ->
    get_table_columns integration table_name (engine w) = (Ok columns, e) ->
    _get_sample_rows self (to_string reserved table) (map col_name columns)
      (set_datahub w e) = (Ok sample, w1) ->
    describes_all self tables w1 infos w2 ->
    describes_all self (table :: tables) w
      (description_text self table_name (to_string reserved table) columns sample :: infos)
      w2.

(** the mapping [_fetch_table_info] fills: each description under the simple
    name of its table, a later one replacing an earlier one of the same name *)
Definition collect (tables : list Identifier) (infos : list string) : dict string :=
  fold_left (fun tables_info ti => dict_set tables_info (simple_name (fst ti)) (snd ti))
            (combine tables infos) [].

(** the markdown fence that [_clean_query] removes *)
Definition fence : string := "```".

(** a call that leaves the observation [f] of the world as it was *)
Definition preserves {A B} (f : World -> B) (m : M A) : Prop :=
  forall w r w', m w = (r, w') -> f w' = f w.

(** the executor was given nothing, or one command on [database] *)
Definition at_most_one_call (database : string) (w w' : World) : Prop :=
  calls w' = calls w \/ exists ast, calls w' = (calls w ++ [(ast, database)])%list.

(** [ValueError("Fetch parameter must be either 'one' or 'all'")] *)
Definition bad_fetch : exn :=
  Exn ValueError "Fetch parameter must be either 'one' or 'all'".

(** a name as discovery builds it: a table of the configured database,
    outside the ignore list *)
Definition discovered_name (self : SQLAgent) (name : string) : Prop :=
  str_in name (_tables_to_ignore self) = false
  /\ exists table, name = _database self +:+ "." +:+ table.

End Methods.
End Agent.

(* ===================================================================== *)
(** * A small instance of the collaborators *)
(* ===================================================================== *)

(** A parser that tags the word after every [from] as a table reference, and
    an executor that answers [show databases;] and [show tables] from two
    lists and any other command with one fixed result.  It serves to run the
    methods on concrete inputs. *)
Module Toy.
Import Py Ident Externals Agent.

Record ToyAst : Type := { toy_text : string; toy_from : list Identifier }.

Record ToyEngine : Type :=
  { toy_databases : list string;
    toy_tables : list string;
    toy_columns : list Column;
    toy_result : ResultSet }.

Fixpoint split_on (c : ascii) (s : string) : list string :=
  match s with
  | EmptyString => [EmptyString]
  | String a r =>
      if Ascii.eqb a c then EmptyString :: split_on c r
      else match split_on c r with
           | w :: ws => String a w :: ws
           | [] => [str1 a]
           end
  end.

Fixpoint after_from (words : list string) : list string :=
  match words with
  | [] => []
  | w :: rest =>
      match rest with
      | t :: _ => if String.eqb w "from" then t :: after_from rest else after_from rest
      | [] => []
      end
  end.

Definition toy_parse (text : string) : Result ToyAst :=
  if is_empty text then Err (Exn (OtherError "ParsingException") "empty statement")
  else Ok {| toy_text := text;
             toy_from := map (fun t => Ident (path_str_to_parts (strip ";" t)))
                             (after_from (split_on " " text)) |}.

Definition toy_traversal (ast : ToyAst) : list Visit :=
  {| v_node := NOther; v_is_table := false |}
  :: map (fun i => {| v_node := NIdentifier i; v_is_table := true |}) (toy_from ast).

Definition one_column (name : string) (cells : list string) : ResultSet :=
  {| rs_columns := [name]; rs_rows := map (fun c => [VStr c]) cells |}.

Definition toy_execute (ast : ToyAst) (database : string) (e : ToyEngine)
  : Result ResultSet * ToyEngine :=
  if String.eqb (toy_text ast) "show databases;"
  then (Ok (one_column "Database" (toy_databases e)), e)
  else if String.eqb (toy_text ast) "show tables"
  then (Ok (one_column ("Tables_in_" +:+ database) (toy_tables e)), e)
  else (Ok (toy_result e), e).

Definition toy_describe (names : list string) (data : list (list Value)) : Result string :=
  match names with
  | [] => Err (Exn ValueError "Cannot describe a DataFrame without columns")
  | _ => Ok ("count " +:+ str_of_int (Z.of_nat (List.length data)))
  end.

Definition toy_reserved (word : string) : bool :=
  str_in word ["SELECT"; "FROM"; "WHERE"; "ORDER"; "GROUP"; "LIMIT"; "TABLE"].

Definition collaborators : Collaborators :=
  {| Ast := ToyAst;
     Engine := ToyEngine;
     parse_sql := toy_parse;
     query_traversal := toy_traversal;
     execute_command := toy_execute;
     get_table_columns := fun _ _ e => (Ok (toy_columns e), e);
     describe := toy_describe;
     reserved := toy_reserved |}.

(** a data source with the database [shop], its tables [orders] and
    [secrets], and a two-row result *)
Definition shop : ToyEngine :=
  {| toy_databases := ["information_schema"; "mindsdb"; "shop"];
     toy_tables := ["orders"; "secrets"];
     toy_columns := [ {| col_name := "id"; col_type := Some "int" |};
                      {| col_name := "name"; col_type := None |} ];
     toy_result := {| rs_columns := ["id"; "name"];
                      rs_rows := [[VInt 1; VStr "a"]; [VInt 2; VStr "b"]] |} |}.

Definition with_result (r : ResultSet) : ToyEngine :=
  {| toy_databases := toy_databases shop;
     toy_tables := toy_tables shop;
     toy_columns := toy_columns shop;
     toy_result := r |}.

Definition xs (n : nat) : string := string_of_list_ascii (repeat "x"%char n).

(** a result with one cell of 100 characters *)
Definition wide : ToyEngine :=
  with_result {| rs_columns := ["note"]; rs_rows := [[VStr (xs 100)]] |}.

(** a result with 40 rows *)
Definition many : ToyEngine :=
  with_result {| rs_columns := ["id"; "name"];
                 rs_rows := repeat [VInt 1; VStr "a"] 40 |}.

Definition world (cache : option (gmap string PyObj)) (e : ToyEngine)
  : World (C := collaborators) :=
  @Build_World collaborators cache e [] "7".

(** the same source behind an executor that cannot list tables *)
Definition flaky_execute (ast : ToyAst) (database : string) (e : ToyEngine)
  : Result ResultSet * ToyEngine :=
  if String.eqb (toy_text ast) "show tables"
  then (Err (Exn (OtherError "ConnectionError") "connection refused"), e)
  else toy_execute ast database e.

Definition flaky : Collaborators :=
  {| Ast := ToyAst;
     Engine := ToyEngine;
     parse_sql := toy_parse;
     query_traversal := toy_traversal;
     execute_command := flaky_execute;
     get_table_columns := fun _ _ e => (Ok (toy_columns e), e);
     describe := toy_describe;
     reserved := toy_reserved |}.

Definition flaky_world (cache : option (gmap string PyObj)) (e : ToyEngine)
  : World (C := flaky) :=
  @Build_World flaky cache e [] "7".

(** a result of 40 rows without columns, which pandas cannot describe *)
Definition columnless : ResultSet :=
  {| rs_columns := []; rs_rows := repeat [] 40 |}.

(** the table-info key of tenant 7, database [shop] and the names
    [shop.orders] and [archive.orders] *)
Definition both_orders_key : string :=
  Sha256.hexdigest (encode "7_shop_table_info_archive.orders_shop.orders").

(** a cache that holds a description of [orders] under that key *)
Definition stale_orders : World (C := collaborators) :=
  world (Some {[ both_orders_key := ODict [("orders", "Table named `orders`")] ]}) shop.

(** two databases with a table of the same name *)
Definition two_orders : list Identifier :=
  [Ident ["shop"; "orders"]; Ident ["archive"; "orders"]].

(** the table-info key of tenant 7, database [shop] and the names [orders]
    and [secrets] *)
Definition orders_secrets_key : string :=
  Sha256.hexdigest (encode "7_shop_table_info_orders_secrets").

(** a cache that holds a description of [orders] alone under that key *)
Definition stale : World (C := collaborators) :=
  world (Some {[ orders_secrets_key := ODict [("orders", "Table named `orders`")] ]}) shop.

(** the catalog with the one entry [shop.orders] *)
Definition shop_orders : Identifier := Ident ["shop"; "orders"].


End Toy.

(* ===================================================================== *)
(** * Facts about the Python fragment *)
(* ===================================================================== *)

Module PyFacts.
Import Py.

Lemma app_cons (c : ascii) (a b : string) : String c a +:+ b = String c (a +:+ b).
Proof. reflexivity. Qed.

Lemma app_nil_l (a : string) : "" +:+ a = a.
Proof. reflexivity. Qed.

Lemma app_nil_r (a : string) : a +:+ "" = a.
Proof. induction a as [|c a IH]; [reflexivity|]. rewrite app_cons, IH. reflexivity. Qed.

Lemma app_assoc (a b c : string) : (a +:+ b) +:+ c = a +:+ (b +:+ c).
Proof.
  induction a as [|x a IH]; [reflexivity|]. rewrite !app_cons, IH. reflexivity.
Qed.

Lemma length_app (a b : string) :
  String.length (a +:+ b) = (String.length a + String.length b)%nat.
Proof.
  induction a as [|x a IH]; [reflexivity|]. rewrite app_cons. simpl. rewrite IH. reflexivity.
Qed.

(** ** The fragment on small inputs *)

Example strip_wrapped :
  strip Agent.strip_chars (" `Orders`" +:+ str1 LF) = "Orders".
Proof. vm_compute. reflexivity. Qed.

(** a tab is not among the stripped characters *)
Example strip_keeps_tab :
  strip Agent.strip_chars (str1 TAB +:+ "orders") = str1 TAB +:+ "orders".
Proof. vm_compute. reflexivity. Qed.

Example repr_plain : repr_str "id" = "'id'".
Proof. vm_compute. reflexivity. Qed.

Example repr_with_quote : repr_str "it's" = String dquote ("it's" +:+ str1 dquote).
Proof. vm_compute. reflexivity. Qed.

Example str_of_negative : str_of_int (-12) = "-12".
Proof. vm_compute. reflexivity. Qed.

Example repr_of_list :
  py_repr (VList [VInt 1; VStr "a"; VNone; VBool true]) = "[1, 'a', None, True]".
Proof. vm_compute. reflexivity. Qed.

Example sorted_names : sorted ["b"; "a"; "B"; "ab"] = ["B"; "a"; "ab"; "b"].
Proof. vm_compute. reflexivity. Qed.

Example clean_query_fence :
  Agent._clean_query "```sql select 1 ```" = " select 1 ".
Proof. vm_compute. reflexivity. Qed.

(** ** [rmapM] *)

Lemma rmapM_ok {A B} (f : A -> Result B) (g : A -> B) (l : list A) :
  (forall x, In x l -> f x = Ok (g x)) -> rmapM f l = Ok (map g l).
Proof.
  induction l as [|x l IH]; intros H; simpl; [reflexivity|].
  rewrite (H x) by (left; reflexivity). simpl.
  rewrite IH by (intros y Hy; apply H; right; exact Hy). reflexivity.
Qed.

(** the first failure is the result, whatever follows it *)
Lemma rmapM_first_err {A B} (f : A -> Result B) (pre : list A) (x : A) (post : list A)
    (e : exn) :
  (forall y, In y pre -> exists b, f y = Ok b) -> f x = Err e ->
  rmapM f (pre ++ x :: post) = Err e.
Proof.
  intros Hpre Hx. induction pre as [|y pre IH]; simpl.
  - rewrite Hx. reflexivity.
  - destruct (Hpre y) as [b ->]; [left; reflexivity|]. simpl.
    rewrite IH by (intros z Hz; apply Hpre; right; exact Hz). reflexivity.
Qed.

Lemma rmapM_length {A B} (f : A -> Result B) (l : list A) (r : list B) :
  rmapM f l = Ok r -> List.length r = List.length l.
Proof.
  revert r. induction l as [|x l IH]; simpl; intros r H.
  - injection H as <-. reflexivity.
  - destruct (f x) as [y|e]; simpl in H; [|discriminate].
    destruct (rmapM f l) as [ys|e]; simpl in H; [|discriminate].
    injection H as <-. simpl. f_equal. apply IH. reflexivity.
Qed.

Lemma rmapM_all_ok {A B} (f : A -> Result B) (l : list A) (r : list B) :
  rmapM f l = Ok r -> Forall2 (fun x y => f x = Ok y) l r.
Proof.
  revert r. induction l as [|x l IH]; simpl; intros r H.
  - injection H as <-. constructor.
  - destruct (f x) as [y|e] eqn:E; simpl in H; [|discriminate].
    destruct (rmapM f l) as [ys|e]; simpl in H; [|discriminate].
    injection H as <-. constructor; [exact E|]. apply IH. reflexivity.
Qed.

(** ** [sorted] *)

Lemma insert_sorted_perm (x : string) (l : list string) :
  Permutation (insert_sorted x l) (x :: l).
Proof.
  induction l as [|y l IH]; simpl; [reflexivity|].
  destruct (String.leb x y); [reflexivity|].
  rewrite IH. apply perm_swap.
Qed.

Lemma sorted_perm (l : list string) : Permutation (sorted l) l.
Proof.
  induction l as [|x l IH]; simpl; [reflexivity|].
  rewrite insert_sorted_perm. now constructor.
Qed.

Lemma insert_sorted_Sorted (x : string) (l : list string) :
  Sorted String.le l -> Sorted String.le (insert_sorted x l).
Proof.
  induction l as [|y l IH]; simpl; intros Hs.
  - repeat constructor.
  - destruct (String.leb x y) eqn:E.
    + constructor; [assumption|]. constructor. unfold String.le. rewrite E. exact I.
    + inversion Hs as [|? ? Hl Hhd]; subst.
      constructor; [apply IH; assumption|].
      assert (Hyx : String.le y x).
      { destruct (total String.le x y) as [H|H]; [|exact H].
        unfold String.le in H. rewrite E in H. destruct H. }
      destruct l as [|z l]; simpl.
      * constructor. exact Hyx.
      * destruct (String.leb x z); constructor; [exact Hyx|].
        inversion Hhd; assumption.
Qed.

Lemma sorted_Sorted (l : list string) : Sorted String.le (sorted l).
Proof.
  induction l as [|x l IH]; simpl; [constructor|].
  apply insert_sorted_Sorted, IH.
Qed.

(** [sorted] depends on the multiset of the names only. *)
Lemma sorted_permutation_invariant (l1 l2 : list string) :
  Permutation l1 l2 -> sorted l1 = sorted l2.
Proof.
  intros HP. apply (Sorted_unique String.le); try apply sorted_Sorted.
  rewrite !sorted_perm. exact HP.
Qed.

(** ** [strip] *)

Lemma all_in_nil (chars : string) : Agent.all_in chars "".
Proof. constructor. Qed.

Lemma all_in_cons (chars : string) (c : ascii) (s : string) :
  Agent.all_in chars (String c s) <-> in_chars chars c = true /\ Agent.all_in chars s.
Proof.
  unfold Agent.all_in. simpl. split.
  - intros H. inversion H; subst. split; assumption.
  - intros [H1 H2]. constructor; assumption.
Qed.

Lemma lstrip_all_in (chars pre s : string) :
  Agent.all_in chars pre -> lstrip chars (pre +:+ s) = lstrip chars s.
Proof.
  induction pre as [|c pre IH]; intros H; [reflexivity|].
  apply all_in_cons in H as [Hc Hpre]. rewrite app_cons. simpl. rewrite Hc.
  apply IH, Hpre.
Qed.

Lemma rstrip_all_in_nil (chars post : string) :
  Agent.all_in chars post -> rstrip chars post = "".
Proof.
  induction post as [|c post IH]; intros H; [reflexivity|].
  apply all_in_cons in H as [Hc Hpost]. simpl. rewrite (IH Hpost), Hc. reflexivity.
Qed.

Lemma rstrip_all_in (chars s post : string) :
  Agent.all_in chars post -> rstrip chars (s +:+ post) = rstrip chars s.
Proof.
  intros H. induction s as [|c s IH].
  - rewrite app_nil_l. apply rstrip_all_in_nil, H.
  - rewrite app_cons. simpl. rewrite IH. reflexivity.
Qed.

Lemma strip_lstrip_all_in (chars s post : string) :
  Agent.all_in chars post ->
  rstrip chars (lstrip chars (s +:+ post)) = rstrip chars (lstrip chars s).
Proof.
  intros H. induction s as [|c s IH].
  - rewrite app_nil_l. simpl.
    enough (lstrip chars post = "") as -> by reflexivity.
    rewrite <- (app_nil_r post). rewrite (lstrip_all_in _ _ _ H). reflexivity.
  - rewrite app_cons. simpl. destruct (in_chars chars c); [exact IH|].
    rewrite <- app_cons. apply rstrip_all_in, H.
Qed.

(** Characters of the stripped set around a text do not change what [strip]
    returns. *)
Lemma strip_padding (chars pre s post : string) :
  Agent.all_in chars pre -> Agent.all_in chars post ->
  strip chars (pre +:+ s +:+ post) = strip chars s.
Proof.
  intros Hpre Hpost. unfold strip. rewrite (lstrip_all_in _ _ _ Hpre).
  apply strip_lstrip_all_in, Hpost.
Qed.

End PyFacts.

(* ===================================================================== *)
(** * Facts about the digest *)
(* ===================================================================== *)

Module Sha256Facts.
Import Py.

(** the digests of the empty message and of [abc], as published with the
    standard *)
Example digest_empty :
  Sha256.hexdigest (encode "")
  = "e3b0c44298fc1c149afbf4c8996fb92427ae41e4649b934ca495991b7852b855".
Proof. vm_compute. reflexivity. Qed.

Example digest_abc :
  Sha256.hexdigest (encode "abc")
  = "ba7816bf8f01cfea414140de5dae2223b00361a396177a9cb410ff61f20015ad".
Proof. vm_compute. reflexivity. Qed.

(** a message of two blocks *)
Example digest_two_blocks :
  Sha256.hexdigest (encode "abcdbcdecdefdefgefghfghighijhijkijkljklmklmnlmnomnopnopq")
  = "248d6a61d20638b8e5c026930c3e6039a33ce45964ff2167f6ecedd419db06c1".
Proof. vm_compute. reflexivity. Qed.

Lemma hex8_length (x : Z) : String.length (Sha256.hex8 x) = 8%nat.
Proof. reflexivity. Qed.

(** A hexadecimal digest has 64 characters, whatever the message. *)
Lemma hexdigest_length (msg : list Z) : String.length (Sha256.hexdigest msg) = 64%nat.
Proof.
  unfold Sha256.hexdigest. cbv zeta.
  rewrite !PyFacts.length_app, !hex8_length. reflexivity.
Qed.

End Sha256Facts.

(* ===================================================================== *)
(** * Facts about identifiers *)
(* ===================================================================== *)

Module IdentFacts.
Import Py Ident.

Lemma span_not_length (c : ascii) (s p q : string) :
  span_not c s = (p, q) -> (String.length p + String.length q = String.length s)%nat.
Proof.
  revert p q. induction s as [|a s IH]; simpl; intros p q H.
  - injection H as <- <-. reflexivity.
  - destruct (Ascii.eqb a c).
    + injection H as <- <-. reflexivity.
    + destruct (span_not c s) as [p' q']. injection H as <- <-.
      specialize (IH _ _ eq_refl). simpl. lia.
Qed.

(** The number of steps given to [path_str_matches] does not matter once it
    reaches the length of the text: [path_str_to_parts] is the whole list of
    matches. *)
Lemma path_str_matches_fuel (n m : nat) (s : string) :
  (String.length s <= n)%nat -> (String.length s <= m)%nat ->
  path_str_matches n s = path_str_matches m s.
Proof.
  revert m s. induction n as [|n IH]; intros m s Hn Hm.
  - destruct s; [destruct m; reflexivity|simpl in Hn; lia].
  - destruct m as [|m]; [destruct s; [reflexivity|simpl in Hm; lia]|].
    destruct s as [|c r]; [reflexivity|].
    simpl in Hn, Hm. cbn [path_str_matches].
    assert (Hdot : forall p q, span_not "." (String c r) = (p, q) -> p <> "" ->
                   path_str_matches n q = path_str_matches m q).
    { intros p q Hs Hp. apply span_not_length in Hs. simpl in Hs.
      destruct p; [contradiction|]. simpl in Hs. apply IH; lia. }
    assert (Hskip : path_str_matches n r = path_str_matches m r) by (apply IH; lia).
    assert (Htail :
      (let (p, rest) := span_not "." (String c r) in
       match p with
       | "" => path_str_matches n r
       | String _ _ => p :: path_str_matches n rest
       end) =
      (let (p, rest) := span_not "." (String c r) in
       match p with
       | "" => path_str_matches m r
       | String _ _ => p :: path_str_matches m rest
       end)).
    { destruct (span_not "." (String c r)) as [[|a p] q] eqn:Hs; [exact Hskip|].
      f_equal. eapply Hdot; [reflexivity|discriminate]. }
    destruct (Ascii.eqb c backtick); [|exact Htail].
    destruct (span_not backtick r) as [[|b body] [|x rest]] eqn:Hq; try exact Htail.
    f_equal. apply span_not_length in Hq. simpl in Hq. apply IH; lia.
Qed.

End IdentFacts.

(* ===================================================================== *)
(** * The allow-list check *)
(* ===================================================================== *)

Module CheckTables.
Import Py Ident Externals Agent.

Section Generic.
Context `{C : Collaborators}.

Lemma last_is_Some (l : list string) : l <> [] -> exists x, last l = Some x.
Proof.
  intros H. destruct (last l) eqn:E; [eauto|].
  apply last_None in E. contradiction.
Qed.

Lemma check_f_include_list (self : SQLAgent) (include : list string) (v : Visit) :
  _tables_to_include self = Some include -> wf_visit v -> _check_f self v = Ok tt.
Proof.
  intros Hinc Hwf. unfold _check_f, wf_visit in *.
  destruct (v_node v) as [i|]; [|reflexivity].
  destruct (v_is_table v); [|reflexivity].
  destruct (last_is_Some _ Hwf) as [table ->]. rewrite Hinc.
  destruct (negb (str_in table include)); reflexivity.
Qed.

(** With an include-list, whatever it holds, the check lets every query
    through. *)
Lemma check_visits_include_list (self : SQLAgent) (include : list string) (vs : list Visit) :
  _tables_to_include self = Some include -> Forall wf_visit vs ->
  check_visits self vs = Ok tt.
Proof.
  intros Hinc. induction 1 as [|v vs Hv _ IH]; simpl; [reflexivity|].
  rewrite (check_f_include_list _ _ _ Hinc Hv). exact IH.
Qed.

Lemma check_f_no_table_ref (self : SQLAgent) (v : Visit) :
  ~ table_ref v -> _check_f self v = Ok tt.
Proof.
  intros Hn. unfold _check_f, table_ref in *.
  destruct (v_node v) as [i|]; [|reflexivity].
  destruct (v_is_table v); [|reflexivity].
  exfalso. apply Hn. eauto.
Qed.

Lemma check_f_no_include_list (self : SQLAgent) (v : Visit) :
  _tables_to_include self = None -> wf_visit v -> table_ref v ->
  _check_f self v = Err none_not_iterable.
Proof.
  intros Hinc Hwf [Ht [i Hi]]. unfold _check_f, wf_visit in *.
  rewrite Hi in *. rewrite Ht.
  destruct (last_is_Some _ Hwf) as [table ->]. rewrite Hinc. reflexivity.
Qed.

Lemma table_ref_dec (v : Visit) : {table_ref v} + {~ table_ref v}.
Proof.
  unfold table_ref. destruct (v_is_table v), (v_node v) as [i|].
  - left. eauto.
  - right. intros [_ [i Hi]]. discriminate.
  - right. intros [H _]. discriminate.
  - right. intros [H _]. discriminate.
Qed.

(** Without an include-list, the first table reference stops the check. *)
Lemma check_visits_no_include_list (self : SQLAgent) (vs : list Visit) :
  _tables_to_include self = None -> Forall wf_visit vs -> Exists table_ref vs ->
  check_visits self vs = Err none_not_iterable.
Proof.
  intros Hinc Hwf. induction Hwf as [|v vs Hv _ IH]; intros Hex.
  - inversion Hex.
  - simpl. destruct (table_ref_dec v) as [Ht|Hn].
    + rewrite (check_f_no_include_list _ _ Hinc Hv Ht). reflexivity.
    + rewrite (check_f_no_table_ref _ _ Hn). simpl. apply IH.
      inversion Hex; subst; [contradiction|assumption].
Qed.

(** With an include-list the executor is given every query that parses,
    also one that refers to a table outside the list. *)
Lemma call_engine_include_list (self : SQLAgent) (include : list string)
    (query : string) (database : option string) (ast : Ast) (w : World) :
  _tables_to_include self = Some include ->
  parse_sql (strip (str1 backtick) query) = Ok ast ->
  Forall wf_visit (query_traversal ast) ->
  _call_engine self query database w
  = run_executor ast (default (_database self) database) w.
Proof.
  intros Hinc Hp Hwf. unfold _call_engine, bind, lift. rewrite Hp.
  unfold _check_tables. rewrite (check_visits_include_list _ _ _ Hinc Hwf).
  destruct database; reflexivity.
Qed.

Lemma call_engine_no_include_list (self : SQLAgent)
    (query : string) (database : option string) (w : World) :
  _tables_to_include self = None -> parses_with_table query ->
  _call_engine self query database w = (Err none_not_iterable, w).
Proof.
  intros Hinc (ast & Hp & Hwf & Hex). unfold _call_engine, bind, lift. rewrite Hp.
  unfold _check_tables. rewrite (check_visits_no_include_list _ _ Hinc Hwf Hex).
  reflexivity.
Qed.

(** C10.  When no include-list is configured ([include_tables] left as
    [None]), [_call_engine] on a query whose parse reaches the check with a
    table reference raises the [TypeError] of the membership test against
    [None], before the executor is called; so [query] fails for such a
    command, and [_get_sample_rows] returns its placeholder. *)
Theorem C10_no_include_list_fails_on_table_reference
    (self : SQLAgent) (w : World) (q : string) (database : option string)
    (command fetch table : string) (fields : list string) :
  _tables_to_include self = None ->
  parses_with_table q ->
  parses_with_table (_clean_query command) ->
  refers_to_a_table (sample_command self table fields) ->
  _call_engine self q database w = (Err none_not_iterable, w)
  /\ query self command fetch w = (Err none_not_iterable, w)
  /\ _get_sample_rows self table fields w = (Ok placeholder, w).
Proof.
  intros Hinc Hq Hcommand Hsample. split; [|split].
  - apply call_engine_no_include_list; assumption.
  - unfold query, bind.
    rewrite (call_engine_no_include_list _ _ _ _ Hinc Hcommand). reflexivity.
  - unfold _get_sample_rows, try_except, bind.
    destruct (parse_sql (strip (str1 backtick) (sample_command self table fields)))
      as [ast|e] eqn:Hp.
    + destruct (Hsample ast Hp) as [Hwf Hex].
      rewrite (call_engine_no_include_list _ _ _ _ Hinc); [reflexivity|].
      exists ast. auto.
    + unfold _call_engine, bind, lift. rewrite Hp. reflexivity.
Qed.

End Generic.

Import Toy.

(** C1.  The check does not reject: with the include-list [orders], the
    query [select * from secrets], whose only table reference is outside the
    list, passes [_check_tables], is handed to the executor by
    [_call_engine], and [query] returns its rows. *)
Theorem C1_query_outside_include_list_is_executed :
  let self := __init__ "shop" (Some ["orders"]) None 3 in
  let w := world None shop in
  let ast := {| toy_text := "select * from secrets";
                toy_from := [Ident ["secrets"]] |} in
  parse_sql (Collaborators := collaborators) "select * from secrets" = Ok ast
  /\ Exists (table_ref_outside ["orders"]) (toy_traversal ast)
  /\ _check_tables (C := collaborators) self ast = Ok tt
  /\ _call_engine self "select * from secrets" None w
     = (Ok (toy_result shop), set_engine w shop (ast, "shop"))
  /\ fst (query self "select * from secrets" "all" w)
     = Ok ("Output columns: 'id', 'name'" +:+ nl +:+ "Result:" +:+ nl
           +:+ "1" +:+ tab +:+ "a" +:+ nl +:+ "2" +:+ tab +:+ "b").
Proof.
  cbv zeta. split; [reflexivity|]. split.
  - apply Exists_cons_tl, Exists_cons_hd. split; [reflexivity|].
    exists (Ident ["secrets"]), "secrets". repeat split.
  - split; [reflexivity|]. split; vm_compute; reflexivity.
Qed.

Lemma toy_select_parses (text : string) (tables : list Identifier) :
  toy_parse (strip (str1 backtick) text)
  = Ok {| toy_text := strip (str1 backtick) text; toy_from := tables |} ->
  Forall (fun i => parts i <> []) tables -> tables <> [] ->
  parses_with_table (C := collaborators) text.
Proof.
  intros Hp Hwf Hne. eexists. split; [exact Hp|]. simpl. unfold toy_traversal. simpl. split.
  - constructor; [exact I|]. apply Forall_map. exact Hwf.
  - destruct tables as [|i tables]; [contradiction|].
    apply Exists_cons_tl, Exists_cons_hd. split; [reflexivity|]. eauto.
Qed.

Lemma C10_witness :
  let self := __init__ "shop" None None 3 in
  let w := world None shop in
  _call_engine self "select * from orders" (Some "shop") w = (Err none_not_iterable, w)
  /\ query self "```sql select id from shop.orders" "all" w = (Err none_not_iterable, w)
  /\ _get_sample_rows self "shop.orders" ["id"; "name"] w = (Ok placeholder, w).
Proof.
  apply (C10_no_include_list_fails_on_table_reference (C := collaborators)).
  - reflexivity.
  - apply (toy_select_parses _ [Ident ["orders"]]);
      [vm_compute; reflexivity | repeat constructor; discriminate | discriminate].
  - apply (toy_select_parses _ [Ident ["shop"; "orders"]]);
      [vm_compute; reflexivity | repeat constructor; discriminate | discriminate].
  - intros ast Hp. vm_compute in Hp. injection Hp as <-. split.
    + repeat constructor. discriminate.
    + apply Exists_cons_tl, Exists_cons_hd. split; [reflexivity|]. eauto.
Defined.

End CheckTables.

(* ===================================================================== *)
(** * Rendering results *)
(* ===================================================================== *)

Module Rendering.
Import Py Ident Externals Agent.

Section Generic.
Context `{C : Collaborators}.

(** On a list of rows, [_tidy] writes one line per row and every cell in
    full, as [str] gives it. *)
Lemma tidy_rows (rows : list (list Value)) :
  _tidy (VList (map VList rows)) = Ok (join nl (map row_line rows)).
Proof.
  unfold _tidy. simpl.
  rewrite (PyFacts.rmapM_ok _ (fun row => match row with
                                          | VList l => row_line l
                                          | _ => ""
                                          end)).
  - simpl. rewrite map_map. reflexivity.
  - intros x Hx. apply in_map_iff in Hx as [row [<- _]]. reflexivity.
Qed.

(** Handed one row, [_tidy] iterates its cells as if they were rows: it
    raises at the first cell that is not iterable. *)
Lemma tidy_one_row_raises (v : Value) (row : list Value) (e : exn) :
  py_iter v = Err e -> _tidy (VList (v :: row)) = Err e.
Proof. intros H. unfold _tidy. simpl. rewrite H. reflexivity. Qed.

(** [fetch="one"] hands the first row to [_tidy]: whenever the first cell of
    that row cannot be iterated (a number, [None], a date), [query] raises. *)
Lemma query_one_raises (self : SQLAgent) (command : string) (w w' : World)
    (r : ResultSet) (v : Value) (row : list Value) (rest : list (list Value)) (e : exn) :
  _call_engine self (_clean_query command) None w = (Ok r, w') ->
  rs_rows r = (v :: row) :: rest ->
  py_iter v = Err e ->
  query self command "one" w = (Err e, w').
Proof.
  intros Hcall Hrows Hv. unfold query, bind. rewrite Hcall. simpl.
  rewrite Hrows. unfold lift. rewrite (tidy_one_row_raises _ _ _ Hv). reflexivity.
Qed.

Lemma query_all (self : SQLAgent) (command : string) (w : World) :
  query self command "all" w
  = bind (_call_engine self (_clean_query command) None)
         (fun r => lift (_repr_result r)) w.
Proof. reflexivity. Qed.

Lemma firstn_length_eq {A} (n : nat) (l : list A) :
  (n <= List.length l)%nat -> List.length (firstn n l) = n.
Proof. intros H. rewrite length_firstn. lia. Qed.

(** C8 as amended.  For a result with more than 30 rows, the renderer that
    [query] uses for [fetch="all"] hands the result to pandas: when pandas
    returns a description, it emits the column names, then the description,
    then the first 30 rows and no other, each as a tab-separated line; when
    pandas raises, it raises that error and emits nothing.  For a result
    with at most 30 rows it emits the column names and all the rows, and
    pandas is not consulted. *)
Theorem C8_repr_result_layout (big small : ResultSet) :
  (limit_rows < List.length (rs_rows big))%nat ->
  (List.length (rs_rows small) <= limit_rows)%nat ->
  _repr_result big
  = match describe (rs_columns big) (rs_rows big) with
    | Ok description =>
        Ok (columns_line big
            +:+ ("Result has " +:+ str_of_int (Z.of_nat (List.length (rs_rows big)))
                 +:+ " rows. Description of data:" +:+ nl
                 +:+ description +:+ nl +:+ nl
                 +:+ "First 30 rows:" +:+ nl)
            +:+ join nl (map row_line (firstn 30 (rs_rows big))))
    | Err e => Err e
    end
  /\ List.length (firstn 30 (rs_rows big)) = 30%nat
  /\ _repr_result small
     = Ok (columns_line small +:+ ("Result:" +:+ nl)
           +:+ join nl (map row_line (rs_rows small))).
Proof.
  intros Hbig Hsmall. split; [|split].
  - unfold _repr_result. apply Nat.ltb_lt in Hbig. rewrite Hbig.
    destruct (describe (rs_columns big) (rs_rows big)) as [description|e];
      [|reflexivity].
    simpl. rewrite tidy_rows. simpl. unfold columns_line.
    rewrite !PyFacts.app_assoc. reflexivity.
  - apply firstn_length_eq. unfold limit_rows in Hbig. lia.
  - unfold _repr_result.
    assert (Hlt : (limit_rows <? List.length (rs_rows small))%nat = false)
      by (apply Nat.ltb_ge; exact Hsmall).
    rewrite Hlt. simpl. rewrite tidy_rows. simpl.
    rewrite firstn_all2 by exact Hsmall. unfold columns_line.
    rewrite !PyFacts.app_assoc. reflexivity.
Qed.

(** ** Sample rows *)

Lemma sample_cell_short (v : Value) :
  (String.length (py_str v) < 100)%nat -> sample_cell v = Ok (py_str v).
Proof. intros H. unfold sample_cell. apply Nat.ltb_lt in H. rewrite H. reflexivity. Qed.

Lemma sample_cell_long (v : Value) :
  (100 <= String.length (py_str v))%nat -> sample_cell v = Err subscript_error.
Proof. intros H. unfold sample_cell. apply Nat.ltb_ge in H. rewrite H. reflexivity. Qed.

Lemma sample_cell_total (v : Value) :
  sample_cell v = Ok (py_str v) \/ sample_cell v = Err subscript_error.
Proof. unfold sample_cell. destruct (_ <? _)%nat; auto. Qed.

(** Rows without a long cell are rendered in full; one long cell anywhere
    makes the whole rendering raise. *)
Lemma sample_rows_short (rows : list (list Value)) :
  Forall (Forall (fun v => (String.length (py_str v) < 100)%nat)) rows ->
  rmapM (rmapM sample_cell) rows = Ok (map (map py_str) rows).
Proof.
  intros H. apply PyFacts.rmapM_ok. intros row Hrow.
  apply PyFacts.rmapM_ok. intros v Hv. apply sample_cell_short.
  rewrite List.Forall_forall in H. specialize (H row Hrow).
  rewrite List.Forall_forall in H. apply H, Hv.
Qed.

Lemma sample_row_long (row : list Value) :
  Exists (fun v => (100 <= String.length (py_str v))%nat) row ->
  rmapM sample_cell row = Err subscript_error.
Proof.
  induction 1 as [v row Hv|v row _ IH]; simpl.
  - rewrite (sample_cell_long _ Hv). reflexivity.
  - destruct (sample_cell_total v) as [-> | ->]; simpl; [rewrite IH|]; reflexivity.
Qed.

(** the only error of a sample row is that of the truncating branch *)
Lemma sample_row_err (row : list Value) (e : exn) :
  rmapM sample_cell row = Err e -> e = subscript_error.
Proof.
  induction row as [|v row IH]; simpl; intros E; [discriminate|].
  destruct (sample_cell_total v) as [Hv|Hv]; rewrite Hv in E; simpl in E.
  - destruct (rmapM sample_cell row) as [cells|e']; simpl in E; [discriminate|].
    injection E as <-. apply IH. reflexivity.
  - injection E as <-. reflexivity.
Qed.

Lemma sample_rows_long (rows : list (list Value)) :
  Exists (Exists (fun v => (100 <= String.length (py_str v))%nat)) rows ->
  rmapM (rmapM sample_cell) rows = Err subscript_error.
Proof.
  induction 1 as [row rows Hrow|row rows _ IH]; simpl.
  - rewrite (sample_row_long _ Hrow). reflexivity.
  - destruct (rmapM sample_cell row) as [cells|e] eqn:E; simpl.
    + rewrite IH. reflexivity.
    + rewrite (sample_row_err _ _ E). reflexivity.
Qed.

(** What [_get_sample_rows] returns once the executor has answered: the rows
    in full when no cell has 100 characters, the placeholder when one has. *)
Lemma get_sample_rows_after_call (self : SQLAgent) (table : string) (fields : list string)
    (w w' : World) (r : ResultSet) :
  _call_engine self (sample_command self table fields) None w = (Ok r, w') ->
  (Forall (Forall (fun v => (String.length (py_str v) < 100)%nat)) (rs_rows r) ->
   _get_sample_rows self table fields w
   = (Ok (nl +:+ join nl (map (fun row => join tab (map py_str row)) (rs_rows r))), w'))
  /\ (Exists (Exists (fun v => (100 <= String.length (py_str v))%nat)) (rs_rows r) ->
      _get_sample_rows self table fields w = (Ok placeholder, w')).
Proof.
  intros Hcall. unfold _get_sample_rows, try_except, bind, lift. rewrite Hcall. split; intros H.
  - rewrite (sample_rows_short _ H). unfold ret. rewrite map_map. reflexivity.
  - rewrite (sample_rows_long _ H). reflexivity.
Qed.

End Generic.

Import Toy.

(** C7.  [query(sql, fetch="one")] on the rows [[1,"a"],[2,"b"]] does not
    return the first row as a line: [_tidy] is handed the row itself and
    iterates its first cell, the integer 1, which raises. *)
Theorem C7_fetch_one_raises_on_first_row :
  let self := __init__ "shop" (Some ["orders"]) None 3 in
  let w := world None shop in
  rs_rows (toy_result shop) = [[VInt 1; VStr "a"]; [VInt 2; VStr "b"]]
  /\ fst (query self "select * from orders" "one" w)
     = Err (Exn TypeError "'int' object is not iterable")
  /\ fst (query_safe self "select * from orders" "one" w)
     = Ok "Error: 'int' object is not iterable"
  /\ row_line [VInt 1; VStr "a"] = "1" +:+ tab +:+ "a".
Proof. cbv zeta. repeat split; vm_compute; reflexivity. Qed.

(** On a first row of strings the same call returns one line per cell, the
    characters of the cell separated by tabs. *)
Example fetch_one_on_strings :
  _tidy (VList [VStr "ab"; VStr "cd"])
  = Ok ("a" +:+ tab +:+ "b" +:+ nl +:+ "c" +:+ tab +:+ "d").
Proof. vm_compute. reflexivity. Qed.

(** C9.  The sample-row renderer does not truncate: on a sampled row with a
    cell of 100 characters, [_get_sample_rows] returns the placeholder, since
    the truncating branch raises; [_tidy] renders the same cell in full. *)
Theorem C9_long_sample_cell_gives_placeholder :
  let self := __init__ "shop" (Some ["orders"]) None 3 in
  let w := world None wide in
  rs_rows (toy_result wide) = [[VStr (xs 100)]]
  /\ String.length (xs 100) = 100%nat
  /\ fst (_get_sample_rows self "shop.orders" ["note"] w) = Ok placeholder
  /\ sample_cell (VStr (xs 100)) = Err (Exn TypeError "type 'str' is not subscriptable")
  /\ _tidy (VList [VList [VStr (xs 100)]]) = Ok (xs 100).
Proof. cbv zeta. repeat split; vm_compute; reflexivity. Qed.

(** C8, as stated, fails: a result of 40 rows that pandas cannot describe
    (it has no columns) is not rendered at all, [query] raises the error of
    pandas. *)
Lemma C8_undescribable_result_is_not_rendered :
  let self := __init__ "shop" (Some ["orders"]) None 3 in
  List.length (rs_rows columnless) = 40%nat
  /\ _repr_result (C := collaborators) columnless
     = Err (Exn ValueError "Cannot describe a DataFrame without columns")
  /\ fst (query self "select * from orders" "all" (world None (with_result columnless)))
     = Err (Exn ValueError "Cannot describe a DataFrame without columns").
Proof. cbv zeta. repeat split; vm_compute; reflexivity. Qed.

Lemma C8_witness :
  _repr_result (C := collaborators) (toy_result many)
  = match describe (Collaborators := collaborators)
            (rs_columns (toy_result many)) (rs_rows (toy_result many)) with
    | Ok description =>
        Ok (columns_line (toy_result many)
            +:+ ("Result has "
                 +:+ str_of_int (Z.of_nat (List.length (rs_rows (toy_result many))))
                 +:+ " rows. Description of data:" +:+ nl
                 +:+ description +:+ nl +:+ nl
                 +:+ "First 30 rows:" +:+ nl)
            +:+ join nl (map row_line (firstn 30 (rs_rows (toy_result many)))))
    | Err e => Err e
    end
  /\ List.length (firstn 30 (rs_rows (toy_result many))) = 30%nat
  /\ _repr_result (C := collaborators) (toy_result shop)
     = Ok (columns_line (toy_result shop) +:+ ("Result:" +:+ nl)
           +:+ join nl (map row_line (rs_rows (toy_result shop)))).
Proof.
  apply (C8_repr_result_layout (C := collaborators) (toy_result many) (toy_result shop)).
  - vm_compute. lia.
  - vm_compute. lia.
Defined.

(** the 40 rows of the instance, rendered: the description, then 30 rows *)
Example forty_rows_rendered :
  _repr_result (C := collaborators) (toy_result many)
  = Ok ("Output columns: 'id', 'name'" +:+ nl
        +:+ "Result has 40 rows. Description of data:" +:+ nl
        +:+ "count 40" +:+ nl +:+ nl
        +:+ "First 30 rows:" +:+ nl
        +:+ join nl (repeat ("1" +:+ tab +:+ "a") 30)).
Proof. vm_compute. reflexivity. Qed.

End Rendering.

(* ===================================================================== *)
(** * The cache *)
(* ===================================================================== *)

Module CacheFacts.
Import Py Ident Externals Agent.

Section Generic.
Context `{C : Collaborators}.

(** ** Calls keep the cache object *)

Lemma keeps_ret {A} (a : A) : keeps_cache (ret a).
Proof. intros w r w' H. injection H as <- <-. auto. Qed.

Lemma keeps_raise {A} (e : exn) : keeps_cache (raise (A := A) e).
Proof. intros w r w' H. injection H as <- <-. auto. Qed.

Lemma keeps_lift {A} (x : Result A) : keeps_cache (lift x).
Proof. intros w r w' H. injection H as <- <-. auto. Qed.

Lemma keeps_bind {A B} (m : M A) (k : A -> M B) :
  keeps_cache m -> (forall a, keeps_cache (k a)) -> keeps_cache (bind m k).
Proof.
  intros Hm Hk w r w' H Hc. unfold bind in H.
  destruct (m w) as [[a|e] w1] eqn:E.
  - eapply Hk; [exact H|]. eapply Hm; eauto.
  - injection H as <- <-. eapply Hm; eauto.
Qed.

Lemma keeps_try_except {A} (m : M A) (h : exn -> M A) :
  keeps_cache m -> (forall e, keeps_cache (h e)) -> keeps_cache (try_except m h).
Proof.
  intros Hm Hh w r w' H Hc. unfold try_except in H.
  destruct (m w) as [[a|e] w1] eqn:E.
  - injection H as <- <-. eapply Hm; eauto.
  - eapply Hh; [exact H|]. eapply Hm; eauto.
Qed.

Lemma keeps_for_each {A S} (l : list A) (body : S -> A -> M S) (s : S) :
  (forall s x, keeps_cache (body s x)) -> keeps_cache (for_each l body s).
Proof.
  intros Hb. revert s. induction l as [|x l IH]; intros s; simpl.
  - apply keeps_ret.
  - apply keeps_bind; [apply Hb|]. intros a. apply IH.
Qed.

Lemma keeps_cache_get (key : string) : keeps_cache (cache_get key).
Proof. intros w r w' H. injection H as <- <-. auto. Qed.

Lemma keeps_get_company_id : keeps_cache get_company_id.
Proof. intros w r w' H. injection H as <- <-. auto. Qed.

Lemma keeps_cache_set (key : string) (o : PyObj) : keeps_cache (cache_set key o).
Proof.
  intros w r w' H Hc. unfold cache_set in H. injection H as <- <-.
  destruct (cache w) eqn:E; simpl; [eexists; reflexivity|].
  rewrite E. exact Hc.
Qed.

Lemma keeps_run_executor (ast : Ast) (database : string) :
  keeps_cache (run_executor ast database).
Proof.
  intros w r w' H Hc. unfold run_executor in H.
  destruct (execute_command ast database (engine w)) as [r0 e].
  injection H as <- <-. exact Hc.
Qed.

Lemma keeps_run_datahub (integration table_name : string) :
  keeps_cache (run_datahub integration table_name).
Proof.
  intros w r w' H Hc. unfold run_datahub in H.
  destruct (get_table_columns integration table_name (engine w)) as [r0 e].
  injection H as <- <-. exact Hc.
Qed.

(** one step of a proof that a method keeps the cache object *)
Ltac keeps_step :=
  first
    [ apply keeps_ret | apply keeps_raise | apply keeps_lift
    | apply keeps_cache_get | apply keeps_cache_set | apply keeps_get_company_id
    | apply keeps_run_executor | apply keeps_run_datahub
    | apply keeps_bind | apply keeps_try_except | apply keeps_for_each
    | progress intros
    | match goal with
      | |- keeps_cache (match ?x with _ => _ end) => destruct x
      end ].

Lemma keeps_call_engine (self : SQLAgent) (query : string) (database : option string) :
  keeps_cache (_call_engine self query database).
Proof. unfold _call_engine. repeat keeps_step. Qed.

Lemma keeps_get_usable_table_names (self : SQLAgent) :
  keeps_cache (get_usable_table_names self).
Proof.
  unfold get_usable_table_names, discover_tables.
  repeat first [ apply keeps_call_engine | keeps_step ].
Qed.

Lemma keeps_get_sample_rows (self : SQLAgent) (table : string) (fields : list string) :
  keeps_cache (_get_sample_rows self table fields).
Proof.
  unfold _get_sample_rows. cbv zeta.
  repeat first [ apply keeps_call_engine | keeps_step ].
Qed.

Lemma keeps_get_single_table_info (self : SQLAgent) (table : Identifier) :
  keeps_cache (_get_single_table_info self table).
Proof.
  unfold _get_single_table_info.
  destruct (_ <? _)%nat; [apply keeps_raise|].
  destruct (last_two (parts table)) as [[integration table_name]|]; [|apply keeps_raise].
  cbv zeta. repeat first [ apply keeps_get_sample_rows | keeps_step ].
Qed.

Lemma keeps_fetch_table_info (self : SQLAgent) (table_names : option (list string)) :
  keeps_cache (_fetch_table_info self table_names).
Proof.
  unfold _fetch_table_info.
  repeat first [ apply keeps_get_usable_table_names
               | apply keeps_get_single_table_info | keeps_step ].
Qed.

(** ** The cache key of the table-info line *)

Lemma generate_cache_key_eq (self : SQLAgent) (table_names : option (list string))
    (w : World) :
  exists key, _generate_cache_key self table_names w = (Ok key, w)
              /\ String.length key = 64%nat.
Proof.
  unfold _generate_cache_key, bind, get_company_id, ret.
  eexists. split; [reflexivity|]. apply Sha256Facts.hexdigest_length.
Qed.

(** C4.  [_generate_cache_key] depends on the tenant, the database and the
    sorted names only: two lists of names that are permutations of each other
    get the same key, for agents on the same database and calls of the same
    tenant, whatever else the worlds hold; the call changes nothing; and
    every key has 64 characters. *)
Theorem C4_cache_key_order_independent
    (self1 self2 : SQLAgent) (w1 w2 : World) (names1 names2 : list string)
    (table_names : option (list string)) :
  _database self1 = _database self2 ->
  company_id w1 = company_id w2 ->
  Permutation names1 names2 ->
  (exists key,
      _generate_cache_key self1 (Some names1) w1 = (Ok key, w1)
      /\ _generate_cache_key self2 (Some names2) w2 = (Ok key, w2)
      /\ String.length key = 64%nat)
  /\ (exists key,
      _generate_cache_key self1 table_names w1 = (Ok key, w1)
      /\ String.length key = 64%nat).
Proof.
  intros Hdb Hcid Hperm. split; [|apply generate_cache_key_eq].
  unfold _generate_cache_key, bind, get_company_id, ret.
  eexists. split; [reflexivity|]. split; [|apply Sha256Facts.hexdigest_length].
  rewrite Hdb, Hcid. destruct names1 as [|n1 ns1], names2 as [|n2 ns2].
  - reflexivity.
  - apply Permutation_nil in Hperm. discriminate.
  - symmetry in Hperm. apply Permutation_nil in Hperm. discriminate.
  - rewrite (PyFacts.sorted_permutation_invariant _ _ Hperm). reflexivity.
Qed.

(** ** The table-list line *)

(** C2 as amended.  With a non-empty include-list, [get_usable_table_names]
    first consults the cache: a non-empty entry under the tenant/database
    key is returned as it is; otherwise the include-list is returned
    verbatim.  In both cases nothing is discovered and nothing is written:
    the world is unchanged. *)
Theorem C2_include_list_after_cache
    (self : SQLAgent) (w : World) (t : string) (ts : list string) :
  _tables_to_include self = Some (t :: ts) ->
  let cached := stored w (tables_key (company_id w) self) in
  get_usable_table_names self w
  = (Ok (match cached with
         | Some o => if truthy o then o else OList (t :: ts)
         | None => OList (t :: ts)
         end), w)
  /\ (cache w = None -> get_usable_table_names self w = (Ok (OList (t :: ts)), w))
  /\ (cached = None -> get_usable_table_names self w = (Ok (OList (t :: ts)), w)).
Proof.
  intros Hinc cached.
  assert (H : get_usable_table_names self w
              = (Ok (match cached with
                     | Some o => if truthy o then o else OList (t :: ts)
                     | None => OList (t :: ts)
                     end), w)).
  { unfold get_usable_table_names, bind, get_company_id, cache_get. rewrite Hinc.
    fold cached. destruct cached as [o|]; [destruct (truthy o)|]; reflexivity. }
  split; [exact H|]. split.
  - intros Hnone. rewrite H. unfold cached, stored. rewrite Hnone. reflexivity.
  - intros Hnone. rewrite H, Hnone. reflexivity.
Qed.

(** ** The table-info line *)

Lemma filter_missing_nonempty (o : PyObj) (names : list string) :
  Exists (fun name => obj_has o name = false) names ->
  List.filter (fun name => negb (obj_has o name)) names <> [].
Proof.
  induction 1 as [n names Hn|n names _ IH]; simpl.
  - rewrite Hn. simpl. discriminate.
  - destruct (negb (obj_has o n)); [discriminate|exact IH].
Qed.

(** A cached value that lacks one of the requested names is not served. *)
Lemma get_info_from_cache_partial (key : string) (names : list string) (o : PyObj)
    (w : World) :
  stored w key = Some o ->
  Exists (fun name => obj_has o name = false) names ->
  _get_info_from_cache key (Some names) w = (Ok (Some (ODict [])), w).
Proof.
  intros Hst Hex. pose proof (filter_missing_nonempty _ _ Hex) as Hf.
  unfold _get_info_from_cache, bind, cache_get. rewrite Hst.
  destruct names as [|n ns]; [inversion Hex|].
  destruct (truthy o); [|reflexivity].
  destruct (List.filter _ (n :: ns)); [contradiction|reflexivity].
Qed.

(** When the value cached under the computed key lacks one of the requested
    names, nothing of it is served: what [get_table_info] returns and stores
    is what [_fetch_table_info] returns for the requested names. *)
Lemma partial_hit_renders_the_fetch
    (self : SQLAgent) (w : World) (names : list string) (key : string) (o : PyObj) :
  _generate_cache_key self (Some names) w = (Ok key, w) ->
  stored w key = Some o ->
  Exists (fun name => obj_has o name = false) names ->
  match _fetch_table_info self (Some names) w with
  | (Ok fresh, w') =>
      exists w'',
        get_table_info self (Some names) w
        = (Ok (join (nl +:+ nl) (dict_values fresh)), w'')
        /\ stored w'' key = Some (ODict fresh)
        /\ cache_set key (ODict fresh) w' = (Ok tt, w'')
  | (Err e, w') =>
      get_table_info self (Some names) w
      = (Ok ("Error fetching table info: " +:+ exn_msg e), w')
  end.
Proof.
  intros Hkey Hst Hex.
  pose proof (keeps_fetch_table_info self (Some names) w) as Hkeep.
  unfold get_table_info, try_except, bind. rewrite Hkey.
  rewrite (get_info_from_cache_partial _ _ _ _ Hst Hex). simpl.
  destruct (_fetch_table_info self (Some names) w) as [[fresh|e] w'] eqn:Hfetch;
    [|reflexivity].
  assert (Hc : is_Some (cache w')).
  { eapply Hkeep; [reflexivity|]. unfold stored in Hst.
    destruct (cache w); [eauto|discriminate]. }
  destruct Hc as [c Hc]. unfold _update_cache, cache_set, lift, ret. rewrite Hc. simpl.
  eexists. split; [reflexivity|]. split; [|reflexivity].
  unfold stored. simpl. apply lookup_insert_eq.
Qed.

(** A cached value that holds every requested name is served, and nothing is
    fetched or written. *)
Lemma pick_ok (cached : dict string) (names : list string) (acc : dict string) :
  Forall (fun name => dict_has cached name = true) names ->
  exists served, pick (ODict cached) names acc = Ok served
                 /\ (List.length acc <= List.length served)%nat.
Proof.
  revert acc. induction names as [|n names IH]; intros acc H; simpl.
  - eauto.
  - inversion H as [|? ? Hn Hrest]; subst. unfold dict_has in Hn.
    destruct (dict_get cached n) as [v|]; [|discriminate]. simpl.
    destruct (IH (dict_set acc n v) Hrest) as [served [-> Hlen]].
    exists served. split; [reflexivity|].
    enough (List.length acc <= List.length (dict_set acc n v))%nat by lia.
    clear. induction acc as [|[k x] acc IH]; simpl; [lia|].
    destruct (String.eqb k n); simpl; lia.
Qed.

Lemma get_table_info_full_hit (self : SQLAgent) (w : World) (names : list string)
    (key : string) (cached : dict string) :
  names <> [] ->
  _generate_cache_key self (Some names) w = (Ok key, w) ->
  stored w key = Some (ODict cached) ->
  Forall (fun name => dict_has cached name = true) names ->
  exists served,
    pick (ODict cached) names [] = Ok served
    /\ get_table_info self (Some names) w
       = (Ok (join (nl +:+ nl) (dict_values served)), w).
Proof.
  intros Hne Hkey Hst Hall.
  destruct names as [|n ns]; [contradiction|].
  assert (Hfilter : List.filter (fun name => negb (obj_has (ODict cached) name)) (n :: ns) = []).
  { clear -Hall. induction Hall as [|x l Hx _ IH]; [reflexivity|].
    simpl. rewrite Hx. exact IH. }
  assert (Htruthy : truthy (ODict cached) = true).
  { inversion Hall as [|? ? Hn _]; subst. unfold dict_has in Hn.
    destruct cached; [discriminate|reflexivity]. }
  assert (Hpick : exists served, pick (ODict cached) (n :: ns) [] = Ok served
                                 /\ truthy (ODict served) = true).
  { simpl. inversion Hall as [|? ? Hn Hrest]; subst. unfold dict_has in Hn.
    destruct (dict_get cached n) as [v|]; [|discriminate]. simpl.
    destruct (pick_ok cached ns [(n, v)] Hrest) as [served [Hs Hlen]].
    exists served. split; [exact Hs|]. destruct served; [simpl in Hlen; lia|reflexivity]. }
  destruct Hpick as [served [Hpick Hts]]. exists served. split; [exact Hpick|].
  unfold get_table_info, try_except, bind. rewrite Hkey.
  unfold _get_info_from_cache, bind, cache_get. rewrite Hst, Htruthy, Hfilter.
  unfold lift. rewrite Hpick. unfold ret. rewrite Hts. reflexivity.
Qed.

End Generic.

Import Toy.

Lemma C4_witness :
  let self := __init__ "shop" (Some ["orders"]) None 3 in
  (exists key,
      _generate_cache_key self (Some ["b"; "a"]) (world None shop)
      = (Ok key, world None shop)
      /\ _generate_cache_key self (Some ["a"; "b"]) (world (Some ∅) wide)
         = (Ok key, world (Some ∅) wide)
      /\ String.length key = 64%nat)
  /\ (exists key,
      _generate_cache_key self None (world None shop) = (Ok key, world None shop)
      /\ String.length key = 64%nat).
Proof.
  apply (C4_cache_key_order_independent (C := collaborators)).
  - reflexivity.
  - reflexivity.
  - apply perm_swap.
Defined.

Example cache_key_value :
  fst (_generate_cache_key (__init__ "shop" None None 3) (Some ["b"; "a"]) (world None shop))
  = Ok "bcd8f676ebee3a32a28badb9a507a85cec9cb08aea6abe885239414ca7ae55de".
Proof. vm_compute. reflexivity. Qed.

(** C2, as stated, fails: the set of tables that an agent without
    include-list discovered and cached for tenant 7 and database [shop] is
    what an agent with the include-list [shop.orders] returns from the same
    cache, and it holds [shop.secrets]. *)
Lemma C2_cached_tables_override_include_list :
  let discovering := __init__ "shop" None None 3 in
  let restricted := __init__ "shop" (Some ["shop.orders"]) None 3 in
  let w := snd (get_usable_table_names discovering (world (Some ∅) shop)) in
  let returned := OSet (list_to_set ["shop.orders"; "shop.secrets"]) in
  _tables_to_include restricted = Some ["shop.orders"]
  /\ fst (get_usable_table_names restricted w) = Ok returned
  /\ fst (get_usable_table_names restricted w) <> Ok (OList ["shop.orders"])
  /\ obj_has returned "shop.secrets" = true
  /\ str_in "shop.secrets" ["shop.orders"] = false.
Proof.
  cbv zeta.
  assert (H : fst (get_usable_table_names (__init__ "shop" (Some ["shop.orders"]) None 3)
                     (snd (get_usable_table_names (__init__ "shop" None None 3)
                             (world (Some ∅) shop))))
              = Ok (OSet (list_to_set ["shop.orders"; "shop.secrets"])))
    by (vm_compute; reflexivity).
  split; [reflexivity|]. split; [exact H|]. split; [rewrite H; discriminate|].
  split; vm_compute; reflexivity.
Qed.

Lemma C2_witness :
  let self := __init__ "shop" (Some ["shop.orders"]) None 3 in
  let w := world (Some ∅) shop in
  let cached := stored w (tables_key (company_id w) self) in
  get_usable_table_names self w
  = (Ok (match cached with
         | Some o => if truthy o then o else OList ["shop.orders"]
         | None => OList ["shop.orders"]
         end), w)
  /\ (cache w = None -> get_usable_table_names self w = (Ok (OList ["shop.orders"]), w))
  /\ (cached = None -> get_usable_table_names self w = (Ok (OList ["shop.orders"]), w)).
Proof.
  apply (C2_include_list_after_cache (C := collaborators)). reflexivity.
Defined.

(** the same call, evaluated: both tables are described afresh *)
Example partial_hit_refetches :
  fst (_fetch_table_info (__init__ "shop" (Some ["shop.orders"; "shop.secrets"]) None 3)
         (Some ["orders"; "secrets"]) stale)
  = Ok [("orders", "Table named `orders`" +:+ nl +:+ nl
                   +:+ "/* Sample with first 3 rows from table shop.orders:" +:+ nl
                   +:+ "id" +:+ tab +:+ "name" +:+ nl
                   +:+ "1" +:+ tab +:+ "a" +:+ nl +:+ "2" +:+ tab +:+ "b" +:+ nl +:+ "*/"
                   +:+ nl +:+ "Column data types: `id` : `int`," +:+ tab +:+ "`name` : ``"
                   +:+ nl);
        ("secrets", "Table named `secrets`" +:+ nl +:+ nl
                   +:+ "/* Sample with first 3 rows from table shop.secrets:" +:+ nl
                   +:+ "id" +:+ tab +:+ "name" +:+ nl
                   +:+ "1" +:+ tab +:+ "a" +:+ nl +:+ "2" +:+ tab +:+ "b" +:+ nl +:+ "*/"
                   +:+ nl +:+ "Column data types: `id` : `int`," +:+ tab +:+ "`name` : ``"
                   +:+ nl)].
Proof. vm_compute. reflexivity. Qed.

End CacheFacts.

(* ===================================================================== *)
(** * Resolving table names *)
(* ===================================================================== *)

Module Resolver.
Import Py Ident Externals Agent.

(** the pattern on some path strings *)
Example parts_qualified : path_str_to_parts "shop.orders" = ["shop"; "orders"].
Proof. vm_compute. reflexivity. Qed.

Example parts_quoted_dot : path_str_to_parts "`a.b`.c..d`e" = ["a.b"; "c"; "d`e"].
Proof. vm_compute. reflexivity. Qed.

Section Generic.
Context `{C : Collaborators}.



Lemma resolve_one_unmatched (idx : gmap (list string) Identifier) (raw : string) :
  strip strip_chars raw <> "" ->
  idx !! path_str_to_parts (strip strip_chars raw) = None ->
  resolve_one idx raw = Err (not_found (normalized raw)).
Proof.
  intros Hne Hnone. unfold resolve_one, of_path_str.
  destruct (strip strip_chars raw) as [|c s] eqn:E; [contradiction|].
  simpl. rewrite Hnone. unfold normalized. rewrite E. reflexivity.
Qed.


(** A batch that returns has an entry for each name. *)
Lemma resolve_names_complete (names : list string) (catalog entries : list Identifier) :
  _resolve_table_names names catalog = Ok entries ->
  List.length entries = List.length names.
Proof.
  unfold _resolve_table_names. destruct (build_index catalog ∅); simpl; [|discriminate].
  apply PyFacts.rmapM_length.
Qed.

End Generic.

Import Toy.



(** C6, as stated, fails: the error names the identifier, not the string
    the caller supplied. *)
Lemma C6_error_names_the_identifier_not_the_string :
  _resolve_table_names (C := collaborators) ["orders"; "`nope`"; "orders"] [shop_orders]
  = Err (Exn ValueError "Table nope not found in database")
  /\ contains "`nope`" "Table nope not found in database" = false.
Proof. split; vm_compute; reflexivity. Qed.

End Resolver.

(* ===================================================================== *)
(** * Cleaning a command *)
(* ===================================================================== *)

Module CleanQuery.
Import Py Ident Externals Agent.

Lemma drop_prefix_cons (a b : ascii) (p s : string) :
  drop_prefix (String a p) (String b s)
  = if Ascii.eqb a b then drop_prefix p s else None.
Proof. reflexivity. Qed.

(** what a text that starts with the fence looks like *)
Lemma starts_with_fence (s tail : string) :
  drop_prefix fence s = Some tail -> s = fence +:+ tail.
Proof.
  unfold fence. destruct s as [|c [|c1 [|c2 r2]]]; cbn [drop_prefix];
    repeat match goal with
           | |- context [Ascii.eqb ?a ?b] => destruct (Ascii.eqb_spec a b); subst
           end; try discriminate.
  intros H. injection H as <-. reflexivity.
Qed.

(** One step of [_clean_query]: a fence at the head is dropped, with the
    word [sql] when it follows; any other character is kept. *)
Lemma clean_query_step (s : string) :
  match drop_prefix fence s with
  | Some tail =>
      exists rest, _clean_query s = _clean_query rest
                   /\ (String.length rest < String.length s)%nat
  | None =>
      match s with
      | EmptyString => _clean_query s = EmptyString
      | String c r => _clean_query s = String c (_clean_query r)
      end
  end.
Proof.
  unfold fence.
  destruct s as [|c [|c1 [|c2 r2]]]; try reflexivity.
  - cbn [drop_prefix]. destruct (Ascii.eqb "`" c); reflexivity.
  - cbn [drop_prefix]. destruct (Ascii.eqb "`" c); [|reflexivity].
    destruct (Ascii.eqb "`" c1); reflexivity.
  - rewrite !drop_prefix_cons.
    cbn [_clean_query]. rewrite !(Ascii.eqb_sym _ backtick). unfold backtick.
    destruct (Ascii.eqb "`" c); [|reflexivity].
    destruct (Ascii.eqb "`" c1); [|reflexivity].
    destruct (Ascii.eqb "`" c2); [|reflexivity].
    simpl andb. cbn [drop_prefix].
    destruct r2 as [|s0 [|s1 [|s2 r3]]];
      try (eexists; split; [reflexivity|simpl; lia]).
    destruct (_ && _ && _); eexists; (split; [reflexivity|simpl; lia]).
Qed.

Lemma clean_starts_with_backtick (r : string) :
  drop_prefix "`" (_clean_query r) <> None -> drop_prefix "`" r <> None.
Proof.
  pose proof (clean_query_step r) as H.
  destruct (drop_prefix fence r) as [tail|] eqn:E.
  - apply starts_with_fence in E. subst r. intros _. discriminate.
  - destruct r as [|c r]; rewrite H; [auto|].
    rewrite !drop_prefix_cons. destruct (Ascii.eqb "`" c); [discriminate|auto].
Qed.

Lemma clean_starts_with_two_backticks (r : string) :
  drop_prefix "``" (_clean_query r) <> None -> drop_prefix "``" r <> None.
Proof.
  pose proof (clean_query_step r) as H.
  destruct (drop_prefix fence r) as [tail|] eqn:E.
  - apply starts_with_fence in E. subst r. intros _. discriminate.
  - destruct r as [|c r]; rewrite H; [auto|].
    rewrite !drop_prefix_cons. destruct (Ascii.eqb "`" c); [|auto].
    apply clean_starts_with_backtick.
Qed.

Lemma clean_query_no_fence_bounded (n : nat) (s : string) :
  (String.length s <= n)%nat -> contains fence (_clean_query s) = false.
Proof.
  revert s. induction n as [|n IH]; intros s Hn.
  - destruct s; [reflexivity|simpl in Hn; lia].
  - pose proof (clean_query_step s) as H.
    destruct (drop_prefix fence s) as [tail|] eqn:E.
    + destruct H as [rest [-> Hlen]]. apply IH. lia.
    + destruct s as [|c r]; rewrite H; [reflexivity|].
      assert (Hr : contains fence (_clean_query r) = false)
        by (apply IH; simpl in Hn; lia).
      cbn [contains]. rewrite Hr.
      destruct (drop_prefix fence (String c (_clean_query r))) as [t|] eqn:E2;
        [|reflexivity].
      exfalso. unfold fence in E, E2. rewrite drop_prefix_cons in E, E2.
      destruct (Ascii.eqb "`" c); [|discriminate].
      apply (clean_starts_with_two_backticks r); congruence.
Qed.

(** X1.  Whatever the command, the text [_clean_query] returns holds no
    markdown fence any more: removing a fence never lets the back-quotes
    around it form a new one. *)
Theorem X1_clean_query_leaves_no_fence (query : string) :
  contains fence (_clean_query query) = false.
Proof. apply (clean_query_no_fence_bounded (String.length query)). lia. Qed.

Lemma clean_query_fence_free (s : string) :
  contains fence s = false -> _clean_query s = s.
Proof.
  induction s as [|c r IH]; intros Hs; [reflexivity|].
  pose proof (clean_query_step (String c r)) as H.
  cbn [contains] in Hs.
  destruct (drop_prefix fence (String c r)); [discriminate|].
  rewrite H, (IH Hs). reflexivity.
Qed.

(** X2.  A command without a fence is returned as it is, and cleaning a
    command twice gives what cleaning it once gives. *)
Theorem X2_clean_query_fixes_clean_commands (command cleaned : string) :
  contains fence cleaned = false ->
  _clean_query cleaned = cleaned
  /\ _clean_query (_clean_query command) = _clean_query command.
Proof.
  intros H. split; [apply clean_query_fence_free, H|].
  apply clean_query_fence_free, (clean_query_no_fence_bounded (String.length command)).
  lia.
Qed.

Lemma X2_witness :
  _clean_query "select `id` from shop.orders" = "select `id` from shop.orders"
  /\ _clean_query (_clean_query "````sql``` select 1") = _clean_query "````sql``` select 1".
Proof.
  apply X2_clean_query_fixes_clean_commands.
  vm_compute. reflexivity.
Defined.

(** five back-quotes: the first three go, the word [sql] no longer follows
    a fence and stays *)
Example clean_query_five_backquotes : _clean_query "`````sql`x" = "``sql`x".
Proof. vm_compute. reflexivity. Qed.

End CleanQuery.

(* ===================================================================== *)
(** * What a call leaves of the world *)
(* ===================================================================== *)

Module WorldFacts.
Import Py Ident Externals Agent.

Section Generic.
Context `{C : Collaborators}.

Lemma preserves_ret {A B} (f : World -> B) (a : A) : preserves f (ret a).
Proof. intros w r w' H. injection H as <- <-. reflexivity. Qed.

Lemma preserves_raise {A B} (f : World -> B) (e : exn) : preserves f (raise (A := A) e).
Proof. intros w r w' H. injection H as <- <-. reflexivity. Qed.

Lemma preserves_lift {A B} (f : World -> B) (x : Result A) : preserves f (lift x).
Proof. intros w r w' H. injection H as <- <-. reflexivity. Qed.

Lemma preserves_bind {A A' B} (f : World -> B) (m : M A) (k : A -> M A') :
  preserves f m -> (forall a, preserves f (k a)) -> preserves f (bind m k).
Proof.
  intros Hm Hk w r w' H. unfold bind in H.
  destruct (m w) as [[a|e] w1] eqn:E.
  - rewrite (Hk _ _ _ _ H). eapply Hm, E.
  - injection H as <- <-. eapply Hm, E.
Qed.

Lemma preserves_try_except {A B} (f : World -> B) (m : M A) (h : exn -> M A) :
  preserves f m -> (forall e, preserves f (h e)) -> preserves f (try_except m h).
Proof.
  intros Hm Hh w r w' H. unfold try_except in H.
  destruct (m w) as [[a|e] w1] eqn:E.
  - injection H as <- <-. eapply Hm, E.
  - rewrite (Hh _ _ _ _ H). eapply Hm, E.
Qed.

Lemma preserves_for_each {A S B} (f : World -> B) (l : list A) (body : S -> A -> M S)
    (s : S) :
  (forall s x, preserves f (body s x)) -> preserves f (for_each l body s).
Proof.
  intros Hb. revert s. induction l as [|x l IH]; intros s; simpl.
  - apply preserves_ret.
  - apply preserves_bind; [apply Hb|]. intros a. apply IH.
Qed.

Lemma preserves_cache_get {B} (f : World -> B) (key : string) : preserves f (cache_get key).
Proof. intros w r w' H. injection H as <- <-. reflexivity. Qed.

Lemma preserves_get_company_id {B} (f : World -> B) : preserves f get_company_id.
Proof. intros w r w' H. injection H as <- <-. reflexivity. Qed.

Lemma tenant_cache_set (key : string) (o : PyObj) : preserves company_id (cache_set key o).
Proof.
  intros w r w' H. unfold cache_set in H. injection H as <- <-.
  destruct (cache w); reflexivity.
Qed.

Lemma tenant_run_executor (ast : Ast) (database : string) :
  preserves company_id (run_executor ast database).
Proof.
  intros w r w' H. unfold run_executor in H.
  destruct (execute_command ast database (engine w)). injection H as <- <-. reflexivity.
Qed.

Lemma tenant_run_datahub (integration table_name : string) :
  preserves company_id (run_datahub integration table_name).
Proof.
  intros w r w' H. unfold run_datahub in H.
  destruct (get_table_columns integration table_name (engine w)).
  injection H as <- <-. reflexivity.
Qed.

Lemma cache_run_executor (ast : Ast) (database : string) :
  preserves cache (run_executor ast database).
Proof.
  intros w r w' H. unfold run_executor in H.
  destruct (execute_command ast database (engine w)). injection H as <- <-. reflexivity.
Qed.

(** one step of a proof that a method preserves an observation *)
Ltac preserves_step :=
  first
    [ apply preserves_ret | apply preserves_raise | apply preserves_lift
    | apply preserves_cache_get | apply preserves_get_company_id
    | apply tenant_cache_set | apply tenant_run_executor | apply tenant_run_datahub
    | apply cache_run_executor
    | apply preserves_bind | apply preserves_try_except | apply preserves_for_each
    | progress intros
    | match goal with
      | |- preserves _ (match ?x with _ => _ end) => destruct x
      end ].

Lemma tenant_call_engine (self : SQLAgent) (query : string) (database : option string) :
  preserves company_id (_call_engine self query database).
Proof. unfold _call_engine. repeat preserves_step. Qed.

Lemma cache_call_engine (self : SQLAgent) (query : string) (database : option string) :
  preserves cache (_call_engine self query database).
Proof. unfold _call_engine. repeat preserves_step. Qed.

Lemma tenant_get_usable_table_names (self : SQLAgent) :
  preserves company_id (get_usable_table_names self).
Proof.
  unfold get_usable_table_names, discover_tables.
  repeat first [ apply tenant_call_engine | preserves_step ].
Qed.

Lemma tenant_get_sample_rows (self : SQLAgent) (table : string) (fields : list string) :
  preserves company_id (_get_sample_rows self table fields).
Proof.
  unfold _get_sample_rows. cbv zeta.
  repeat first [ apply tenant_call_engine | preserves_step ].
Qed.

Lemma tenant_get_single_table_info (self : SQLAgent) (table : Identifier) :
  preserves company_id (_get_single_table_info self table).
Proof.
  unfold _get_single_table_info.
  destruct (_ <? _)%nat; [apply preserves_raise|].
  destruct (last_two (parts table)) as [[integration table_name]|]; [|apply preserves_raise].
  cbv zeta. repeat first [ apply tenant_get_sample_rows | preserves_step ].
Qed.

Lemma tenant_fetch_table_info (self : SQLAgent) (table_names : option (list string)) :
  preserves company_id (_fetch_table_info self table_names).
Proof.
  unfold _fetch_table_info.
  repeat first [ apply tenant_get_usable_table_names
               | apply tenant_get_single_table_info | preserves_step ].
Qed.

(** What [_call_engine] does to the world: nothing when the command does not
    parse or the check raises; otherwise the executor is given the parsed
    command once, on the database asked for or else the configured one. *)
Lemma call_engine_inv (self : SQLAgent) (query : string) (database : option string)
    (w w' : World) (r : Result ResultSet) :
  _call_engine self query database w = (r, w') ->
  (w' = w /\ exists e, r = Err e)
  \/ (exists ast,
        parse_sql (strip (str1 backtick) query) = Ok ast
        /\ _check_tables self ast = Ok tt
        /\ execute_command ast (default (_database self) database) (engine w)
           = (r, engine w')
        /\ calls w' = (calls w ++ [(ast, default (_database self) database)])%list).
Proof.
  unfold _call_engine, bind, lift.
  destruct (parse_sql (strip (str1 backtick) query)) as [ast|e] eqn:Hp.
  - destruct (_check_tables self ast) as [[]|e] eqn:Hc.
    + intros H. right. exists ast. split; [reflexivity|]. split; [exact Hc|].
      replace (match database with Some d => d | None => _database self end)
        with (default (_database self) database) in H by (destruct database; reflexivity).
      unfold run_executor in H.
      destruct (execute_command ast (default (_database self) database) (engine w))
        as [r0 e0].
      injection H as <- <-. split; reflexivity.
    + intros H. injection H as <- <-. left. eauto.
  - intros H. injection H as <- <-. left. eauto.
Qed.

End Generic.
End WorldFacts.

(* ===================================================================== *)
(** * Running a command *)
(* ===================================================================== *)

Module QueryFacts.
Import Py Ident Externals Agent.

Section Generic.
Context `{C : Collaborators}.

(** what [query] does once the executor has answered changes nothing *)
Lemma query_after_call (self : SQLAgent) (command fetch : string) (w : World) :
  query self command fetch w
  = match _call_engine self (_clean_query command) None w with
    | (Ok r, w') =>
        (if String.eqb fetch "all" then _repr_result r
         else if String.eqb fetch "one" then
                match rs_rows r with
                | [] => Err (Exn IndexError "list index out of range")
                | row :: _ => _tidy (VList row)
                end
              else Err bad_fetch, w')
    | (Err e, w') => (Err e, w')
    end.
Proof.
  unfold query, bind.
  destruct (_call_engine self (_clean_query command) None w) as [[r|e] w']; [|reflexivity].
  destruct (String.eqb fetch "all"); [reflexivity|].
  destruct (String.eqb fetch "one"); [|reflexivity].
  destruct (rs_rows r); reflexivity.
Qed.

(** X3.  The [fetch] argument is looked at only after the command has run:
    with a value other than [all] and [one], a command that the executor
    answers has been executed, on the configured database, when [query]
    raises its [ValueError]. *)
Theorem X3_query_checks_fetch_after_running
    (self : SQLAgent) (command fetch : string) (w w' : World) (r : ResultSet) :
  fetch <> "all" -> fetch <> "one" ->
  _call_engine self (_clean_query command) None w = (Ok r, w') ->
  query self command fetch w = (Err bad_fetch, w')
  /\ exists ast, calls w' = (calls w ++ [(ast, _database self)])%list
                 /\ execute_command ast (_database self) (engine w) = (Ok r, engine w').
Proof.
  intros Hall Hone Hcall. split.
  - rewrite query_after_call, Hcall.
    apply String.eqb_neq in Hall, Hone. rewrite Hall, Hone. reflexivity.
  - destruct (WorldFacts.call_engine_inv _ _ _ _ _ _ Hcall)
      as [[_ [e He]]|[ast (_ & _ & Hex & Hcalls)]]; [discriminate|].
    exists ast. split; assumption.
Qed.

(** X4.  A call of [query] gives the executor at most one command, on the
    configured database, and leaves the cache and the tenant as they were. *)
Theorem X4_query_runs_at_most_one_command
    (self : SQLAgent) (command fetch : string) (w w' : World) (r : Result string) :
  query self command fetch w = (r, w') ->
  cache w' = cache w /\ company_id w' = company_id w
  /\ at_most_one_call (_database self) w w'.
Proof.
  rewrite query_after_call.
  destruct (_call_engine self (_clean_query command) None w) as [r0 w1] eqn:Hcall.
  intros H. assert (w' = w1) as -> by (destruct r0; injection H as _ <-; reflexivity).
  split; [exact (WorldFacts.cache_call_engine _ _ _ _ _ _ Hcall)|].
  split; [exact (WorldFacts.tenant_call_engine _ _ _ _ _ _ Hcall)|].
  destruct (WorldFacts.call_engine_inv _ _ _ _ _ _ Hcall)
    as [[-> _]|[ast (_ & _ & _ & Hcalls)]].
  - left. reflexivity.
  - right. exists ast. exact Hcalls.
Qed.

Lemma repr_result_header (r : ResultSet) (s : string) :
  _repr_result r = Ok s -> exists rest, s = "Output columns: " +:+ rest.
Proof.
  unfold _repr_result.
  destruct (limit_rows <? List.length (rs_rows r))%nat.
  - destruct (describe (rs_columns r) (rs_rows r)) as [d|e]; simpl; [|discriminate].
    destruct (_tidy _) as [rows|e]; simpl; [|discriminate].
    intros H. injection H as <-. rewrite !PyFacts.app_assoc. eauto.
  - simpl. destruct (_tidy _) as [rows|e]; simpl; [|discriminate].
    intros H. injection H as <-. rewrite !PyFacts.app_assoc. eauto.
Qed.

(** X5.  What [query] returns for [fetch="all"] always starts with the
    line of column names: it is never the empty string, also for a result
    without rows, which gives that line and the line [Result:]. *)
Theorem X5_query_all_is_never_empty
    (self : SQLAgent) (command : string) (w w' : World) (s : string) :
  query self command "all" w = (Ok s, w') ->
  (exists rest, s = "Output columns: " +:+ rest)
  /\ s <> ""
  /\ (forall r, _call_engine self (_clean_query command) None w = (Ok r, w') ->
                rs_rows r = [] -> s = columns_line r +:+ "Result:" +:+ nl).
Proof.
  rewrite query_after_call.
  destruct (_call_engine self (_clean_query command) None w) as [[r|e] w1] eqn:Hcall;
    [|discriminate].
  simpl. intros H. injection H as H <-.
  destruct (repr_result_header _ _ H) as [rest Hrest].
  split; [eauto|]. split; [rewrite Hrest; discriminate|].
  intros r0 Hr0 Hrows. injection Hr0 as <-.
  unfold _repr_result in H. rewrite Hrows in H. simpl in H.
  injection H as <-. unfold columns_line. apply PyFacts.app_nil_r.
Qed.

(** [get_table_info] catches what it raises *)
Lemma get_table_info_returns (self : SQLAgent) (table_names : option (list string))
    (w : World) :
  exists s w', get_table_info self table_names w = (Ok s, w').
Proof.
  unfold get_table_info, try_except.
  match goal with |- context [match ?m w with _ => _ end] => destruct (m w) as [[s|e] w'] end;
    eauto.
Qed.

(** X6.  [get_table_info] never raises: a failure comes back as the text
    [Error fetching table info: ...].  So the handler of
    [get_table_info_safe] is never reached, and the two methods return the
    same text and leave the same world. *)
Theorem X6_get_table_info_safe_is_get_table_info
    (self : SQLAgent) (table_names : option (list string)) (w : World) :
  (exists s w', get_table_info self table_names w = (Ok s, w'))
  /\ get_table_info_safe self table_names w = get_table_info self table_names w.
Proof.
  destruct (get_table_info_returns self table_names w) as (s & w' & H).
  split; [eauto|]. unfold get_table_info_safe, try_except. rewrite H. reflexivity.
Qed.

End Generic.

Import Toy.

Lemma X3_witness :
  let self := __init__ "shop" (Some ["orders"]) None 3 in
  let w := world None shop in
  let ast := {| toy_text := "select * from orders"; toy_from := [Ident ["orders"]] |} in
  query self "select * from orders" "first" w
  = (Err bad_fetch, set_engine w shop (ast, "shop"))
  /\ exists ast', calls (set_engine w shop (ast, "shop")) = (calls w ++ [(ast', "shop")])%list
       /\ execute_command ast' "shop" (engine w)
          = (Ok (toy_result shop), engine (set_engine w shop (ast, "shop"))).
Proof.
  apply (X3_query_checks_fetch_after_running (C := collaborators)).
  - discriminate.
  - discriminate.
  - vm_compute. reflexivity.
Defined.

Lemma X4_witness :
  let self := __init__ "shop" (Some ["orders"]) None 3 in
  let w := world (Some ∅) shop in
  let w' := snd (query self "select * from orders" "all" w) in
  cache w' = cache w /\ company_id w' = company_id w /\ at_most_one_call "shop" w w'.
Proof.
  cbv zeta.
  apply (X4_query_runs_at_most_one_command (C := collaborators)
           (__init__ "shop" (Some ["orders"]) None 3) "select * from orders" "all" _ _
           (fst (query (__init__ "shop" (Some ["orders"]) None 3)
                   "select * from orders" "all" (world (Some ∅) shop)))).
  vm_compute. reflexivity.
Defined.

Lemma X5_witness :
  let self := __init__ "shop" (Some ["orders"]) None 3 in
  let empty := with_result {| rs_columns := ["id"]; rs_rows := [] |} in
  let w := world None empty in
  let s := "Output columns: 'id'" +:+ nl +:+ "Result:" +:+ nl in
  let w' := snd (query self "select id from orders" "all" w) in
  (exists rest, s = "Output columns: " +:+ rest)
  /\ s <> ""
  /\ (forall r, _call_engine self (_clean_query "select id from orders") None w = (Ok r, w') ->
                rs_rows r = [] -> s = columns_line r +:+ "Result:" +:+ nl).
Proof.
  cbv zeta.
  apply (X5_query_all_is_never_empty (C := collaborators)
           (__init__ "shop" (Some ["orders"]) None 3) "select id from orders"
           (world None (with_result {| rs_columns := ["id"]; rs_rows := [] |}))).
  vm_compute. reflexivity.
Defined.

End QueryFacts.

(* ===================================================================== *)
(** * Discovering the tables *)
(* ===================================================================== *)

Module Discovery.
Import Py Ident Externals Agent.

Section Generic.
Context `{C : Collaborators}.

(** ** The loop over the databases *)

Lemma for_each_inv {A S} (P : S -> Prop) (l : list A) (body : S -> A -> M S) :
  (forall s x w s' w', In x l -> P s -> body s x w = (Ok s', w') -> P s') ->
  forall s w s' w', P s -> for_each l body s w = (Ok s', w') -> P s'.
Proof.
  induction l as [|x l IH]; intros Hb s w s' w' Hs H; simpl in H.
  - injection H as <- <-. exact Hs.
  - unfold bind in H. destruct (body s x w) as [[s1|e] w1] eqn:E; [|discriminate].
    eapply (IH (fun s x w s' w' Hx => Hb s x w s' w' (or_intror Hx))); [|exact H].
    eapply Hb; [left; reflexivity|exact Hs|exact E].
Qed.

Lemma for_each_returns {A S} (l : list A) (body : S -> A -> M S) :
  (forall s x w, exists s' w', body s x w = (Ok s', w')) ->
  forall s w, exists s' w', for_each l body s w = (Ok s', w').
Proof.
  intros Hb. induction l as [|x l IH]; intros s w; simpl.
  - eauto.
  - unfold bind. destruct (Hb s x w) as (s1 & w1 & ->). apply IH.
Qed.

Lemma eq_str_true (v : Value) (s : string) : eq_str v s = true -> py_str v = s.
Proof.
  destruct v; simpl; try discriminate. intros H. apply String.eqb_eq in H. exact H.
Qed.

(** a turn of the loop never raises *)
Lemma discover_step_returns (self : SQLAgent) (usable : list string) (db : Value)
    (w : World) :
  exists usable' w', discover_step self usable db w = (Ok usable', w').
Proof.
  unfold discover_step. destruct (_ && _); [|unfold ret; eauto].
  unfold try_except.
  match goal with |- context [match ?m w with _ => _ end] => destruct (m w) as [[s|e] w'] end;
    unfold ret; eauto.
Qed.

(** a turn of the loop adds names of tables of the configured database that
    are not ignored *)
Lemma discover_step_names (self : SQLAgent) (usable usable' : list string) (db : Value)
    (w w' : World) :
  Forall (discovered_name self) usable ->
  discover_step self usable db w = (Ok usable', w') ->
  Forall (discovered_name self) usable'.
Proof.
  intros Hu. unfold discover_step.
  destruct (negb (eq_str db "mindsdb") && eq_str db (_database self)) eqn:Hcond;
    [|intros H; injection H as <- <-; exact Hu].
  apply andb_prop in Hcond as [_ Hdb]. apply eq_str_true in Hdb.
  unfold try_except, bind, lift, ret.
  destruct (_call_engine self "show tables" (Some (py_str db)) w) as [[r|e] w1];
    [|intros H; injection H as <- <-; exact Hu].
  destruct (first_column (rs_rows r)) as [tables|e];
    [|intros H; injection H as <- <-; exact Hu].
  intros H. injection H as <- <-. apply Forall_app_2; [exact Hu|].
  apply List.Forall_forall. intros name Hin.
  apply filter_In in Hin as [Hin Hig]. apply in_map_iff in Hin as [table [<- _]].
  split; [apply negb_true_iff, Hig|]. rewrite Hdb. eauto.
Qed.

(** a turn of the loop on a database other than the configured one, or on
    [mindsdb], adds nothing *)
Lemma discover_step_skips (self : SQLAgent) (usable : list string) (db : Value) (w : World) :
  negb (eq_str db "mindsdb") && eq_str db (_database self) = false ->
  discover_step self usable db w = (Ok usable, w).
Proof. intros H. unfold discover_step. rewrite H. reflexivity. Qed.

Lemma first_column_not_schema (rows : list (list Value)) (dbs : list Value) :
  first_column rows = Ok dbs ->
  Forall (fun db => eq_str db "information_schema" = false) dbs.
Proof.
  unfold first_column. destruct (rmapM first_cell rows) as [cells|e]; simpl; [|discriminate].
  intros H. injection H as <-. apply List.Forall_forall. intros db Hin.
  apply filter_In in Hin as [_ H]. apply negb_true_iff, H.
Qed.

Lemma first_column_returns (rows : list (list Value)) :
  Forall (fun row => row <> []) rows -> exists dbs, first_column rows = Ok dbs.
Proof.
  intros H. unfold first_column.
  rewrite (PyFacts.rmapM_ok first_cell (fun row => List.hd VNone row)).
  - simpl. eauto.
  - intros row Hin. rewrite List.Forall_forall in H. specialize (H row Hin).
    destruct row; [contradiction|reflexivity].
Qed.

(** ** The method without include-list and without cached tables *)

Lemma get_usable_table_names_discovers (self : SQLAgent) (w : World) :
  truthy_list (_tables_to_include self) = false ->
  stored w (tables_key (company_id w) self) = None ->
  get_usable_table_names self w
  = discover_tables self (tables_key (company_id w) self) w.
Proof.
  intros Hinc Hst. unfold get_usable_table_names, bind, get_company_id, cache_get.
  rewrite Hst. destruct (_tables_to_include self) as [[|t ts]|]; try reflexivity.
  discriminate.
Qed.

(** what a discovery that returns went through *)
Lemma discover_tables_inv (self : SQLAgent) (key : string) (w w' : World) (o : PyObj) :
  discover_tables self key w = (Ok o, w') ->
  exists r w1 dbs usable w2,
    _call_engine self "show databases;" None w = (Ok r, w1)
    /\ first_column (rs_rows r) = Ok dbs
    /\ for_each dbs (discover_step self) [] w1 = (Ok usable, w2)
    /\ cache_set key (OSet (list_to_set usable)) w2 = (Ok tt, w')
    /\ o = OList usable.
Proof.
  unfold discover_tables.
  change (for_each ?dbs _ []) with (for_each dbs (discover_step self) []).
  unfold bind, lift.
  destruct (_call_engine self "show databases;" None w) as [[r|e] w1] eqn:Hshow;
    [|discriminate].
  destruct (first_column (rs_rows r)) as [dbs|e] eqn:Hcol; [|discriminate].
  destruct (for_each dbs (discover_step self) [] w1) as [[usable|e] w2] eqn:Hloop;
    [|discriminate].
  destruct (cache_set key (OSet (list_to_set usable)) w2) as [[[]|e] w3] eqn:Hset;
    [|discriminate].
  unfold ret. intros H. injection H as <- <-.
  exists r, w1, dbs, usable, w2. repeat split; assumption || reflexivity.
Qed.

(** X7.  Without include-list and without cached tables, every name that
    [get_usable_table_names] returns is a table of the configured database,
    written [database.table], and is not in the ignore list. *)
Theorem X7_discovered_names_are_qualified_and_not_ignored
    (self : SQLAgent) (w w' : World) (o : PyObj) :
  truthy_list (_tables_to_include self) = false ->
  stored w (tables_key (company_id w) self) = None ->
  get_usable_table_names self w = (Ok o, w') ->
  exists names,
    get_usable_table_names self w = (Ok (OList names), w')
    /\ Forall (discovered_name self) names.
Proof.
  intros Hinc Hst Hcall. rewrite Hcall.
  rewrite (get_usable_table_names_discovers _ _ Hinc Hst) in Hcall.
  apply discover_tables_inv in Hcall
    as (r & w1 & dbs & usable & w2 & _ & _ & Hloop & _ & ->).
  exists usable. split; [reflexivity|].
  eapply (for_each_inv (Forall (discovered_name self))); [|constructor|exact Hloop].
  intros s x w0 s' w0' _ Hs Hstep. eapply discover_step_names; eassumption.
Qed.

(** X8.  Listing the tables of a database may fail without failing the
    discovery: once [show databases;] has returned rows that are not empty,
    [get_usable_table_names] returns a list, whatever [show tables] does. *)
Theorem X8_discovery_survives_table_listing_failure
    (self : SQLAgent) (w w1 : World) (r : ResultSet) :
  truthy_list (_tables_to_include self) = false ->
  stored w (tables_key (company_id w) self) = None ->
  _call_engine self "show databases;" None w = (Ok r, w1) ->
  Forall (fun row => row <> []) (rs_rows r) ->
  exists names w', get_usable_table_names self w = (Ok (OList names), w').
Proof.
  intros Hinc Hst Hcall Hrows. rewrite (get_usable_table_names_discovers _ _ Hinc Hst).
  unfold discover_tables.
  change (for_each ?dbs _ []) with (for_each dbs (discover_step self) []).
  unfold bind, lift. rewrite Hcall.
  destruct (first_column_returns _ Hrows) as [dbs ->].
  destruct (for_each_returns dbs (discover_step self) (discover_step_returns self) [] w1)
    as (usable & w2 & ->).
  unfold cache_set, ret. eauto.
Qed.

(** X9.  An agent configured on the database [mindsdb] or
    [information_schema] discovers no table: the loop skips the first and
    the listing drops the second. *)
Theorem X9_no_tables_for_mindsdb
    (self : SQLAgent) (w w' : World) (o : PyObj) :
  _database self = "mindsdb" \/ _database self = "information_schema" ->
  truthy_list (_tables_to_include self) = false ->
  stored w (tables_key (company_id w) self) = None ->
  get_usable_table_names self w = (Ok o, w') ->
  get_usable_table_names self w = (Ok (OList []), w').
Proof.
  intros Hdb Hinc Hst Hcall. rewrite Hcall.
  rewrite (get_usable_table_names_discovers _ _ Hinc Hst) in Hcall.
  apply discover_tables_inv in Hcall
    as (r & w1 & dbs & usable & w2 & _ & Hcol & Hloop & _ & ->).
  do 3 f_equal. apply first_column_not_schema in Hcol.
  eapply (for_each_inv (fun s => s = [])); [|reflexivity|exact Hloop].
  intros s x w0 s' w0' Hx -> Hstep.
  rewrite discover_step_skips in Hstep; [injection Hstep as <- _; reflexivity|].
  rewrite List.Forall_forall in Hcol. specialize (Hcol x Hx).
  destruct Hdb as [-> | ->].
  - destruct (eq_str x "mindsdb"); reflexivity.
  - rewrite Hcol. apply andb_false_r.
Qed.

Lemma list_to_set_truthy (names : list string) :
  names <> [] -> truthy (OSet (list_to_set names)) = true.
Proof.
  destruct names as [|n names]; [contradiction|]. intros _. simpl.
  apply negb_true_iff, bool_decide_eq_false. set_solver.
Qed.

(** X10.  The tables discovered are cached under the key of the tenant and
    the database: when there is a cache and the discovery found a table, the
    next call returns the cached set of the names found, without giving the
    executor anything and without changing the world. *)
Theorem X10_discovered_tables_are_served_from_cache
    (self : SQLAgent) (w w' : World) (names : list string) :
  truthy_list (_tables_to_include self) = false ->
  is_Some (cache w) ->
  stored w (tables_key (company_id w) self) = None ->
  get_usable_table_names self w = (Ok (OList names), w') ->
  names <> [] ->
  get_usable_table_names self w' = (Ok (OSet (list_to_set names)), w').
Proof.
  intros Hinc Hcache Hst Hcall Hne.
  pose proof (WorldFacts.tenant_get_usable_table_names self _ _ _ Hcall) as Hcid.
  rewrite (get_usable_table_names_discovers _ _ Hinc Hst) in Hcall.
  apply discover_tables_inv in Hcall
    as (r & w1 & dbs & usable & w2 & Hshow & _ & Hloop & Hset & Heq).
  injection Heq as ->.
  assert (Hc2 : is_Some (cache w2)).
  { eapply (CacheFacts.keeps_for_each dbs (discover_step self) []); [|exact Hloop|].
    - intros s x. unfold discover_step.
      destruct (_ && _); [|apply CacheFacts.keeps_ret].
      apply CacheFacts.keeps_try_except; [|intros; apply CacheFacts.keeps_ret].
      apply CacheFacts.keeps_bind; [apply CacheFacts.keeps_call_engine|].
      intros r0. apply CacheFacts.keeps_bind; [apply CacheFacts.keeps_lift|].
      intros tables. apply CacheFacts.keeps_ret.
    - eapply CacheFacts.keeps_call_engine; eassumption. }
  destruct Hc2 as [c Hc]. unfold cache_set in Hset. rewrite Hc in Hset.
  injection Hset as <-. simpl in Hcid.
  unfold get_usable_table_names, bind, get_company_id, cache_get, stored. simpl.
  rewrite Hcid, lookup_insert_eq. rewrite (list_to_set_truthy _ Hne). reflexivity.
Qed.

End Generic.

Import Toy.

Lemma X7_witness :
  let self := __init__ "shop" None (Some ["shop.secrets"]) 3 in
  let w := world None shop in
  exists names,
    get_usable_table_names self w
    = (Ok (OList names), snd (get_usable_table_names self w))
    /\ Forall (discovered_name self) names.
Proof.
  cbv zeta.
  apply (X7_discovered_names_are_qualified_and_not_ignored (C := collaborators)
           (__init__ "shop" None (Some ["shop.secrets"]) 3) (world None shop)
           (snd (get_usable_table_names (__init__ "shop" None (Some ["shop.secrets"]) 3)
                   (world None shop)))
           (OList ["shop.orders"])).
  - reflexivity.
  - reflexivity.
  - vm_compute. reflexivity.
Defined.

Example discovery_drops_ignored :
  fst (get_usable_table_names (__init__ "shop" None (Some ["shop.secrets"]) 3)
         (world None shop))
  = Ok (OList ["shop.orders"]).
Proof. vm_compute. reflexivity. Qed.

(** with an executor that cannot list tables, the discovery returns no
    table and no error *)
Lemma X8_witness :
  exists names w',
    get_usable_table_names (C := flaky) (__init__ "shop" None None 3) (flaky_world None shop)
    = (Ok (OList names), w').
Proof.
  apply (X8_discovery_survives_table_listing_failure (C := flaky)
           (__init__ "shop" None None 3) (flaky_world None shop)
           (snd (_call_engine (C := flaky) (__init__ "shop" None None 3)
                   "show databases;" None (flaky_world None shop)))
           (one_column "Database" (toy_databases shop))).
  - reflexivity.
  - reflexivity.
  - vm_compute. reflexivity.
  - repeat constructor; discriminate.
Defined.

Example flaky_discovery_is_empty :
  fst (get_usable_table_names (C := flaky) (__init__ "shop" None None 3)
         (flaky_world None shop))
  = Ok (OList []).
Proof. vm_compute. reflexivity. Qed.

Lemma X9_witness :
  let self := __init__ "mindsdb" None None 3 in
  let w := world None shop in
  get_usable_table_names self w = (Ok (OList []), snd (get_usable_table_names self w)).
Proof.
  cbv zeta.
  apply (X9_no_tables_for_mindsdb (C := collaborators)
           (__init__ "mindsdb" None None 3) (world None shop)
           (snd (get_usable_table_names (__init__ "mindsdb" None None 3) (world None shop)))
           (OList [])).
  - left. reflexivity.
  - reflexivity.
  - reflexivity.
  - vm_compute. reflexivity.
Defined.

Lemma X10_witness :
  let self := __init__ "shop" None None 3 in
  let w' := snd (get_usable_table_names self (world (Some ∅) shop)) in
  get_usable_table_names self w'
  = (Ok (OSet (list_to_set ["shop.orders"; "shop.secrets"])), w').
Proof.
  cbv zeta.
  apply (X10_discovered_tables_are_served_from_cache (C := collaborators)
           (__init__ "shop" None None 3) (world (Some ∅) shop)).
  - reflexivity.
  - eexists. reflexivity.
  - reflexivity.
  - vm_compute. reflexivity.
  - discriminate.
Defined.

End Discovery.

(* ===================================================================== *)
(** * The lookup index *)
(* ===================================================================== *)

Module IndexFacts.
Import Py Ident Externals Agent.

Section Generic.
Context `{C : Collaborators}.

Lemma find_snoc {A} (f : A -> bool) (l : list A) (x : A) :
  List.find f (l ++ [x])
  = match List.find f l with
    | Some y => Some y
    | None => if f x then Some x else None
    end.
Proof.
  induction l as [|y l IH]; simpl; [reflexivity|].
  destruct (f y); [reflexivity|exact IH].
Qed.

(** What the index holds under a key: the last table of the catalog filed
    under it, and otherwise what it held before. *)
Lemma build_index_lookup (catalog : list Identifier)
    (idx0 idx : gmap (list string) Identifier) (k : list string) :
  build_index catalog idx0 = Ok idx ->
  idx !! k = match last_match catalog k with
             | Some t => Some t
             | None => idx0 !! k
             end.
Proof.
  revert idx0. induction catalog as [|t rest IH]; intros idx0 H; simpl in H.
  - injection H as <-. reflexivity.
  - destruct (last (parts t)) as [name|] eqn:Hlast; [|discriminate].
    rewrite (IH _ H). unfold last_match. simpl rev. rewrite find_snoc.
    destruct (List.find (key_matches k) (rev rest)); [reflexivity|].
    unfold key_matches. rewrite Hlast.
    destruct (decide (k = parts t)) as [->|Hne].
    + rewrite bool_decide_eq_true_2 by reflexivity. simpl. apply lookup_insert_eq.
    + rewrite (bool_decide_eq_false_2 _ Hne). simpl.
      rewrite lookup_insert_ne by congruence.
      destruct (decide (k = [name])) as [->|Hne'].
      * rewrite bool_decide_eq_true_2 by reflexivity. apply lookup_insert_eq.
      * rewrite (bool_decide_eq_false_2 _ Hne'). apply lookup_insert_ne. congruence.
Qed.

Lemma build_index_returns (catalog : list Identifier) (idx0 : gmap (list string) Identifier) :
  Forall (fun t => parts t <> []) catalog -> exists idx, build_index catalog idx0 = Ok idx.
Proof.
  intros H. revert idx0. induction H as [|t rest Ht _ IH]; intros idx0; simpl; [eauto|].
  destruct (CheckTables.last_is_Some _ Ht) as [name ->]. apply IH.
Qed.

Lemma resolve_one_last_match (catalog : list Identifier)
    (idx : gmap (list string) Identifier) (table_name : string) :
  build_index catalog ∅ = Ok idx ->
  resolve_one idx table_name = resolve_by_last_match catalog table_name.
Proof.
  intros H. unfold resolve_one, resolve_by_last_match.
  destruct (of_path_str (strip strip_chars table_name)) as [table|e]; [|reflexivity].
  simpl. rewrite (build_index_lookup _ _ _ _ H).
  destruct (last_match catalog (parts table)); [reflexivity|].
  rewrite lookup_empty. reflexivity.
Qed.

Lemma rmapM_ext {A B} (f g : A -> Result B) (l : list A) :
  (forall x, f x = g x) -> rmapM f l = rmapM g l.
Proof.
  intros H. induction l as [|x l IH]; simpl; [reflexivity|]. rewrite H, IH. reflexivity.
Qed.

(** X11.  Over a catalog whose identifiers have a part, a name resolves to
    the last entry of the catalog whose path, or whose last part alone, is
    the parts of the stripped name: of two tables with the same simple name,
    the bare name gives the later one. *)
Theorem X11_resolution_takes_the_last_match
    (table_names : list string) (catalog : list Identifier) :
  Forall (fun t => parts t <> []) catalog ->
  _resolve_table_names table_names catalog
  = rmapM (resolve_by_last_match catalog) table_names.
Proof.
  intros Hwf. unfold _resolve_table_names.
  destruct (build_index_returns catalog ∅ Hwf) as [idx Hidx]. rewrite Hidx. simpl.
  apply rmapM_ext. intros name. apply resolve_one_last_match, Hidx.
Qed.

(** X12.  Every entry that [_resolve_table_names] returns is an entry of the
    catalog, filed under the parts of the stripped name it was asked for:
    there is one entry for each name, in order, and none is made up from the
    name itself. *)
Theorem X12_resolved_entries_come_from_the_catalog
    (table_names : list string) (catalog entries : list Identifier) :
  _resolve_table_names table_names catalog = Ok entries ->
  Forall2 (fun name entry =>
             In entry catalog
             /\ key_matches (parts (normalized name)) entry = true)
          table_names entries.
Proof.
  unfold _resolve_table_names.
  destruct (build_index catalog ∅) as [idx|e] eqn:Hidx; simpl; [|discriminate].
  intros H. apply PyFacts.rmapM_all_ok in H.
  eapply Forall2_impl; [exact H|]. intros name entry Hres. cbv beta in Hres.
  rewrite (resolve_one_last_match _ _ _ Hidx) in Hres.
  unfold resolve_by_last_match, of_path_str in Hres.
  destruct (is_empty (strip strip_chars name)); [discriminate|]. simpl in Hres.
  change (path_str_to_parts (strip strip_chars name))
    with (parts (normalized name)) in Hres.
  destruct (last_match catalog (parts (normalized name))) as [t|] eqn:Hm; [|discriminate].
  injection Hres as <-. unfold last_match in Hm. apply find_some in Hm as [Hin Hk].
  split; [apply in_rev, Hin|exact Hk].
Qed.

(** an identifier without parts in the catalog fails every batch *)
Lemma resolve_with_empty_identifier (table_names : list string)
    (before after : list Identifier) :
  Forall (fun t => parts t <> []) before ->
  _resolve_table_names table_names (before ++ Ident [] :: after)
  = Err (Exn IndexError "list index out of range").
Proof.
  intros Hwf. unfold _resolve_table_names.
  enough (forall idx0, build_index (before ++ Ident [] :: after) idx0
                       = Err (Exn IndexError "list index out of range")) as -> by reflexivity.
  induction Hwf as [|t rest Ht _ IH]; intros idx0; simpl; [reflexivity|].
  destruct (CheckTables.last_is_Some _ Ht) as [name ->]. apply IH.
Qed.

(** C6 as amended.  Over a catalog whose identifiers all have a part, when
    the first name of the batch without a match in the catalog is not
    empty once stripped, [_resolve_table_names] raises a [ValueError] whose
    text names the identifier parsed from the stripped name, as the
    identifier renders itself; the batch yields no entries. *)
Theorem C6_first_unmatched_name_aborts
    (catalog : list Identifier) (pre : list string) (raw : string) (post : list string) :
  Forall (fun t => parts t <> []) catalog ->
  (forall name, In name pre -> exists entry, resolve_by_last_match catalog name = Ok entry) ->
  strip strip_chars raw <> "" ->
  last_match catalog (parts (normalized raw)) = None ->
  _resolve_table_names (pre ++ raw :: post) catalog = Err (not_found (normalized raw))
  /\ exn_cls (not_found (normalized raw)) = ValueError
  /\ exn_msg (not_found (normalized raw))
     = "Table "
       +:+ parts_to_str reserved (path_str_to_parts (strip strip_chars raw))
       +:+ " not found in database".
Proof.
  intros Hwf Hpre Hne Hnone. split; [|split; reflexivity].
  destruct (build_index_returns catalog ∅ Hwf) as [idx Hidx].
  unfold _resolve_table_names. rewrite Hidx. simpl.
  apply PyFacts.rmapM_first_err.
  - intros name Hin. rewrite (resolve_one_last_match _ _ _ Hidx). apply Hpre, Hin.
  - apply Resolver.resolve_one_unmatched; [exact Hne|].
    rewrite (build_index_lookup _ _ _ _ Hidx). unfold normalized in Hnone. simpl in Hnone.
    rewrite Hnone. apply lookup_empty.
Qed.

End Generic.

Import Toy.

Lemma C6_witness :
  _resolve_table_names (C := collaborators) (["orders"] ++ "`nope`" :: ["orders"]) [shop_orders]
  = Err (not_found (C := collaborators) (normalized "`nope`"))
  /\ exn_cls (not_found (C := collaborators) (normalized "`nope`")) = ValueError
  /\ exn_msg (not_found (C := collaborators) (normalized "`nope`"))
     = "Table "
       +:+ parts_to_str toy_reserved (path_str_to_parts (strip strip_chars "`nope`"))
       +:+ " not found in database".
Proof.
  apply (C6_first_unmatched_name_aborts (C := collaborators) [shop_orders]).
  - repeat constructor. discriminate.
  - intros name [<-|[]]. exists shop_orders. vm_compute. reflexivity.
  - vm_compute. discriminate.
  - vm_compute. reflexivity.
Defined.

(** a catalog with an identifier without parts fails before any name is
    looked at *)
Example catalog_without_parts_fails :
  _resolve_table_names (C := collaborators) ["nope"] [Ident []; shop_orders]
  = Err (Exn IndexError "list index out of range").
Proof. vm_compute. reflexivity. Qed.

Lemma X11_witness :
  _resolve_table_names (C := collaborators) ["orders"; "shop.orders"] two_orders
  = rmapM (resolve_by_last_match (C := collaborators) two_orders) ["orders"; "shop.orders"].
Proof.
  apply (X11_resolution_takes_the_last_match (C := collaborators)).
  repeat constructor; discriminate.
Defined.

(** the bare name gives the table of the later database *)
Example bare_name_gives_later_table :
  _resolve_table_names (C := collaborators) ["orders"; "shop.orders"] two_orders
  = Ok [Ident ["archive"; "orders"]; Ident ["shop"; "orders"]].
Proof. vm_compute. reflexivity. Qed.

Lemma X12_witness :
  Forall2 (fun name entry =>
             In entry two_orders
             /\ key_matches (parts (normalized name)) entry = true)
          ["`orders`"; "shop.orders"]
          [Ident ["archive"; "orders"]; Ident ["shop"; "orders"]].
Proof.
  apply (X12_resolved_entries_come_from_the_catalog (C := collaborators)).
  vm_compute. reflexivity.
Defined.

End IndexFacts.

(* ===================================================================== *)
(** * The table-info line of the cache *)
(* ===================================================================== *)

Module TableInfo.
Import Py Ident Externals Agent.

Section Generic.
Context `{C : Collaborators}.

(** ** Keys *)

(** X13.  The key of a request does not keep the names apart: a request for
    several names has the key of the request for the one name made of the
    sorted names joined by underscores, and a request without names has the
    key of a request for the empty list. *)
Theorem X13_cache_key_joins_the_names
    (self : SQLAgent) (w : World) (table_names : list string) :
  table_names <> [] ->
  _generate_cache_key self (Some table_names) w
  = _generate_cache_key self (Some [join "_" (sorted table_names)]) w
  /\ _generate_cache_key self (Some []) w = _generate_cache_key self None w.
Proof.
  intros Hne. split; [|reflexivity].
  destruct table_names as [|n ns]; [contradiction|]. reflexivity.
Qed.

Lemma generate_cache_key_tenant (self : SQLAgent) (table_names : option (list string))
    (w w' : World) (key : string) :
  company_id w' = company_id w ->
  _generate_cache_key self table_names w = (Ok key, w) ->
  _generate_cache_key self table_names w' = (Ok key, w').
Proof.
  unfold _generate_cache_key, bind, get_company_id, ret. intros -> H.
  injection H as <-. reflexivity.
Qed.

(** ** Dictionaries *)

Lemma dict_get_set_eq {V} (d : dict V) (k : string) (v : V) :
  dict_get (dict_set d k v) k = Some v.
Proof.
  induction d as [|[k' v'] d IH]; simpl.
  - rewrite String.eqb_refl. reflexivity.
  - destruct (String.eqb k' k) eqn:E; simpl; rewrite E; [reflexivity|exact IH].
Qed.

Lemma dict_get_set_ne {V} (d : dict V) (k k' : string) (v : V) :
  k <> k' -> dict_get (dict_set d k v) k' = dict_get d k'.
Proof.
  intros Hne. induction d as [|[k0 v0] d IH]; simpl.
  - apply String.eqb_neq in Hne. rewrite Hne. reflexivity.
  - destruct (String.eqb k0 k) eqn:E; simpl.
    + apply String.eqb_eq in E. subst k0.
      apply String.eqb_neq in Hne. rewrite Hne. reflexivity.
    + destruct (String.eqb k0 k'); [reflexivity|exact IH].
Qed.

(** what the comprehension over the requested names holds *)
Lemma pick_lookup (cached : dict string) (names : list string) (acc served : dict string)
    (name : string) :
  pick (ODict cached) names acc = Ok served ->
  dict_get served name
  = if str_in name names then dict_get cached name else dict_get acc name.
Proof.
  revert acc. induction names as [|n rest IH]; intros acc H; simpl in H.
  - injection H as <-. reflexivity.
  - destruct (dict_get cached n) as [v|] eqn:Hn; [|discriminate]. simpl in H.
    rewrite (IH _ H). unfold str_in. simpl. fold (str_in name rest).
    destruct (str_in name rest); [rewrite orb_true_r; reflexivity|].
    rewrite orb_false_r. destruct (String.eqb_spec name n) as [->|Hne].
    + rewrite dict_get_set_eq, Hn. reflexivity.
    + apply dict_get_set_ne. congruence.
Qed.

(** ** Hits *)

(** X14.  When the value cached under the key holds every requested name,
    [get_table_info] returns the cached descriptions of the requested
    tables and of no other, gives the executor nothing and leaves the
    world as it was. *)
Theorem X14_full_hit_is_served_from_the_cache
    (self : SQLAgent) (w : World) (names : list string) (key : string)
    (cached : dict string) :
  names <> [] ->
  _generate_cache_key self (Some names) w = (Ok key, w) ->
  stored w key = Some (ODict cached) ->
  Forall (fun name => dict_has cached name = true) names ->
  exists served,
    get_table_info self (Some names) w = (Ok (join (nl +:+ nl) (dict_values served)), w)
    /\ forall name,
         dict_get served name = if str_in name names then dict_get cached name else None.
Proof.
  intros Hne Hkey Hst Hall.
  destruct (CacheFacts.get_table_info_full_hit _ _ _ _ _ Hne Hkey Hst Hall)
    as (served & Hpick & Hget).
  exists served. split; [exact Hget|].
  intros name. apply (pick_lookup _ _ _ _ _ Hpick).
Qed.

(** a request without names is served the whole cached mapping *)
Lemma get_table_info_whole_hit (self : SQLAgent) (w : World)
    (table_names : option (list string)) (key : string) (cached : dict string) :
  truthy_list table_names = false ->
  _generate_cache_key self table_names w = (Ok key, w) ->
  stored w key = Some (ODict cached) ->
  cached <> [] ->
  get_table_info self table_names w = (Ok (join (nl +:+ nl) (dict_values cached)), w).
Proof.
  intros Hnames Hkey Hst Hne.
  unfold get_table_info, try_except, bind. rewrite Hkey.
  unfold _get_info_from_cache, bind, cache_get. rewrite Hst, Hnames.
  destruct cached as [|kv cached]; [contradiction|].
  destruct table_names as [[|n ns]|]; try discriminate; reflexivity.
Qed.

(** ** Misses *)

Lemma get_table_info_miss (self : SQLAgent) (w : World)
    (table_names : option (list string)) (key : string) :
  _generate_cache_key self table_names w = (Ok key, w) ->
  stored w key = None ->
  get_table_info self table_names w
  = match _fetch_table_info self table_names w with
    | (Ok fresh, w1) =>
        (Ok (join (nl +:+ nl) (dict_values fresh)), snd (cache_set key (ODict fresh) w1))
    | (Err e, w1) => (Ok ("Error fetching table info: " +:+ exn_msg e), w1)
    end.
Proof.
  intros Hkey Hst. unfold get_table_info, try_except, bind. rewrite Hkey.
  unfold _get_info_from_cache, bind, cache_get. rewrite Hst.
  destruct table_names as [[|n ns]|]; simpl;
    destruct (_fetch_table_info self _ w) as [[fresh|e] w1]; reflexivity.
Qed.

(** X15.  A fetched mapping is stored and found again: after a call of
    [get_table_info] that found nothing under the key and fetched a mapping
    that is not empty and holds the requested names, the same call again
    returns a text, gives the executor nothing and leaves the world as it
    was; for a request without names the text is the same. *)
Theorem X15_fetched_info_is_served_on_the_next_call
    (self : SQLAgent) (w w1 : World) (table_names : option (list string)) (key : string)
    (fresh : dict string) :
  is_Some (cache w) ->
  _generate_cache_key self table_names w = (Ok key, w) ->
  stored w key = None ->
  _fetch_table_info self table_names w = (Ok fresh, w1) ->
  fresh <> [] ->
  (forall names, table_names = Some names ->
                 Forall (fun name => dict_has fresh name = true) names) ->
  exists w' again,
    get_table_info self table_names w = (Ok (join (nl +:+ nl) (dict_values fresh)), w')
    /\ stored w' key = Some (ODict fresh)
    /\ get_table_info self table_names w' = (Ok again, w')
    /\ (truthy_list table_names = false -> again = join (nl +:+ nl) (dict_values fresh)).
Proof.
  intros Hcache Hkey Hst Hfetch Hne Hnames.
  rewrite (get_table_info_miss _ _ _ _ Hkey Hst), Hfetch.
  destruct (CacheFacts.keeps_fetch_table_info self table_names _ _ _ Hfetch Hcache)
    as [c Hc].
  pose proof (WorldFacts.tenant_fetch_table_info self table_names _ _ _ Hfetch) as Hcid.
  set (w' := snd (cache_set key (ODict fresh) w1)).
  assert (Hst' : stored w' key = Some (ODict fresh)).
  { unfold w', cache_set, stored. simpl. rewrite Hc. simpl. apply lookup_insert_eq. }
  assert (Hkey' : _generate_cache_key self table_names w' = (Ok key, w')).
  { apply (generate_cache_key_tenant _ _ w); [|exact Hkey].
    unfold w', cache_set. simpl. rewrite Hc. exact Hcid. }
  destruct (truthy_list table_names) eqn:Htruthy.
  - destruct table_names as [[|n ns]|]; try discriminate.
    destruct (CacheFacts.get_table_info_full_hit self w' (n :: ns) key fresh)
      as (served & _ & Hget); [discriminate|exact Hkey'|exact Hst'|eauto|].
    exists w', (join (nl +:+ nl) (dict_values served)).
    split; [reflexivity|]. split; [exact Hst'|]. split; [exact Hget|discriminate].
  - exists w', (join (nl +:+ nl) (dict_values fresh)).
    split; [reflexivity|]. split; [exact Hst'|]. split; [|reflexivity].
    apply (get_table_info_whole_hit _ _ _ key); assumption.
Qed.

(** ** Tables without a database *)

Lemma single_table_info_needs_database (self : SQLAgent) (part : string) (w : World) :
  _get_single_table_info self (Ident [part]) w
  = (Err (database_required (Ident [part])), w).
Proof. reflexivity. Qed.

(** X16.  The names of the include-list are described only when they carry
    a database: with an include-list whose first name has a single part, no
    cached tables and nothing cached under the key, [get_table_info] for all
    tables returns the text of the error [Database is required for table],
    gives the executor nothing and leaves the world as it was. *)
Theorem X16_include_list_needs_qualified_names
    (self : SQLAgent) (w : World) (t : string) (ts : list string) (part key : string) :
  _tables_to_include self = Some (t :: ts) ->
  Forall (fun name => name <> "") (t :: ts) ->
  path_str_to_parts t = [part] ->
  stored w (tables_key (company_id w) self) = None ->
  _generate_cache_key self None w = (Ok key, w) ->
  stored w key = None ->
  get_table_info self None w
  = (Ok ("Error fetching table info: Database is required for table: "
         +:+ to_string reserved (Ident [part])), w).
Proof.
  intros Hinc Hnames Hparts Hst Hkey Hinfo.
  rewrite (get_table_info_miss _ _ _ _ Hkey Hinfo).
  unfold _fetch_table_info, bind.
  assert (Husable : get_usable_table_names self w = (Ok (OList (t :: ts)), w)).
  { unfold get_usable_table_names, bind, get_company_id, cache_get.
    rewrite Hst, Hinc. reflexivity. }
  rewrite Husable. unfold lift. cbn [obj_iter].
  rewrite (PyFacts.rmapM_ok of_path_str (fun name => Ident (path_str_to_parts name))).
  - cbn [map]. rewrite Hparts. unfold ret at 1. cbn [for_each]. unfold bind.
    rewrite single_table_info_needs_database. reflexivity.
  - intros name Hin. rewrite List.Forall_forall in Hnames. specialize (Hnames name Hin).
    unfold of_path_str. destruct name; [contradiction|reflexivity].
Qed.

End Generic.

Import Toy.

Lemma X13_witness :
  let self := __init__ "shop" None None 3 in
  let w := world None shop in
  _generate_cache_key self (Some ["a_b"; "c"]) w
  = _generate_cache_key self (Some [join "_" (sorted ["a_b"; "c"])]) w
  /\ _generate_cache_key self (Some []) w = _generate_cache_key self None w.
Proof.
  apply (X13_cache_key_joins_the_names (C := collaborators)). discriminate.
Defined.

(** the requests for [a] and [b_c], for [a_b] and [c], and for [a_b_c] have
    one key *)
Example three_requests_one_key :
  let self := __init__ "shop" None None 3 in
  let w := world None shop in
  _generate_cache_key self (Some ["a"; "b_c"]) w = _generate_cache_key self (Some ["a_b"; "c"]) w
  /\ _generate_cache_key self (Some ["a_b"; "c"]) w = _generate_cache_key self (Some ["a_b_c"]) w.
Proof. split; vm_compute; reflexivity. Qed.

(** a cache that holds descriptions of [orders] and [secrets] under the key
    of the request for both *)
Lemma X14_witness :
  let self := __init__ "shop" (Some ["shop.orders"; "shop.secrets"]) None 3 in
  let cached := [("orders", "Table named `orders`"); ("secrets", "Table named `secrets`");
                 ("other", "Table named `other`")] in
  let w := world (Some {[ orders_secrets_key := ODict cached ]}) shop in
  exists served,
    get_table_info self (Some ["secrets"; "orders"]) w
    = (Ok (join (nl +:+ nl) (dict_values served)), w)
    /\ forall name,
         dict_get served name
         = if str_in name ["secrets"; "orders"] then dict_get cached name else None.
Proof.
  cbv zeta.
  apply (X14_full_hit_is_served_from_the_cache (C := collaborators)
           _ _ _ orders_secrets_key).
  - discriminate.
  - vm_compute. reflexivity.
  - vm_compute. reflexivity.
  - repeat constructor.
Defined.

Lemma X15_witness :
  let self := __init__ "shop" (Some ["shop.orders"; "shop.secrets"]) None 3 in
  let names := Some ["orders"; "secrets"] in
  let w := world (Some ∅) shop in
  let fresh := match fst (_fetch_table_info self names w) with
               | Ok d => d
               | Err _ => []
               end in
  exists w' again,
    get_table_info self names w = (Ok (join (nl +:+ nl) (dict_values fresh)), w')
    /\ stored w' orders_secrets_key = Some (ODict fresh)
    /\ get_table_info self names w' = (Ok again, w')
    /\ (truthy_list names = false -> again = join (nl +:+ nl) (dict_values fresh)).
Proof.
  cbv zeta.
  apply (X15_fetched_info_is_served_on_the_next_call (C := collaborators)
           _ _ (snd (_fetch_table_info
                       (__init__ "shop" (Some ["shop.orders"; "shop.secrets"]) None 3)
                       (Some ["orders"; "secrets"]) (world (Some ∅) shop)))).
  - eexists. reflexivity.
  - vm_compute. reflexivity.
  - reflexivity.
  - vm_compute. reflexivity.
  - vm_compute. discriminate.
  - intros names H. injection H as <-. repeat constructor.
Defined.

Lemma X16_witness :
  let self := __init__ "shop" (Some ["orders"; "shop.secrets"]) None 3 in
  let w := world (Some ∅) shop in
  get_table_info self None w
  = (Ok ("Error fetching table info: Database is required for table: "
         +:+ to_string toy_reserved (Ident ["orders"])), w).
Proof.
  cbv zeta.
  apply (X16_include_list_needs_qualified_names (C := collaborators)
           _ _ "orders" ["shop.secrets"] "orders"
           (Sha256.hexdigest (encode "7_shop_table_info"))).
  - reflexivity.
  - repeat constructor; discriminate.
  - vm_compute. reflexivity.
  - reflexivity.
  - vm_compute. reflexivity.
  - reflexivity.
Defined.

End TableInfo.

(* ===================================================================== *)
(** * Calling the executor *)
(* ===================================================================== *)

Module EngineFacts.
Import Py Ident Externals Agent.

Section Generic.
Context `{C : Collaborators}.

(** X17.  Back-quotes around a command are not part of it: [_call_engine]
    on a command between runs of back-quotes does what it does on the
    command alone. *)
Theorem X17_call_engine_ignores_wrapping_backquotes
    (self : SQLAgent) (before query after : string) (database : option string) (w : World) :
  all_in (str1 backtick) before -> all_in (str1 backtick) after ->
  _call_engine self (before +:+ query +:+ after) database w
  = _call_engine self query database w.
Proof.
  intros Hbefore Hafter. unfold _call_engine.
  rewrite (PyFacts.strip_padding _ _ _ _ Hbefore Hafter). reflexivity.
Qed.

(** X18.  When the executor answers the sample command with rows whose
    cells all have fewer than 100 characters, [_get_sample_rows] returns a
    line feed followed by the rows in full, one line per row, the cells
    separated by tabs; for no rows it returns the line feed alone. *)
Theorem X18_sample_rows_are_rendered_in_full
    (self : SQLAgent) (table : string) (fields : list string) (w w' : World)
    (r : ResultSet) :
  _call_engine self (sample_command self table fields) None w = (Ok r, w') ->
  Forall (Forall (fun v => (String.length (py_str v) < 100)%nat)) (rs_rows r) ->
  _get_sample_rows self table fields w
  = (Ok (nl +:+ join nl (map row_line (rs_rows r))), w')
  /\ (rs_rows r = [] -> _get_sample_rows self table fields w = (Ok nl, w')).
Proof.
  intros Hcall Hshort.
  destruct (Rendering.get_sample_rows_after_call _ _ _ _ _ _ Hcall) as [Hfull _].
  specialize (Hfull Hshort). split; [exact Hfull|].
  intros Hrows. rewrite Hfull, Hrows. simpl. rewrite PyFacts.app_nil_r. reflexivity.
Qed.

End Generic.

Import Toy.

Lemma X17_witness :
  let self := __init__ "shop" (Some ["orders"]) None 3 in
  _call_engine self ("`" +:+ "select * from orders" +:+ "``") None (world None shop)
  = _call_engine self "select * from orders" None (world None shop).
Proof.
  apply (X17_call_engine_ignores_wrapping_backquotes (C := collaborators));
    repeat constructor.
Defined.

Lemma X18_witness :
  let self := __init__ "shop" (Some ["orders"]) None 3 in
  let w := world None shop in
  let w' := snd (_call_engine self (sample_command self "shop.orders" ["id"; "name"]) None w) in
  _get_sample_rows self "shop.orders" ["id"; "name"] w
  = (Ok (nl +:+ join nl (map row_line (rs_rows (toy_result shop)))), w')
  /\ (rs_rows (toy_result shop) = [] ->
      _get_sample_rows self "shop.orders" ["id"; "name"] w = (Ok nl, w')).
Proof.
  cbv zeta.
  apply (X18_sample_rows_are_rendered_in_full (C := collaborators)).
  - vm_compute. reflexivity.
  - repeat constructor.
Defined.

End EngineFacts.

(* ===================================================================== *)
(** * Fetching again after a partial hit *)
(* ===================================================================== *)

Module Refetch.
Import Py Ident Externals Agent.

Section Generic.
Context `{C : Collaborators}.

Lemma last_two_length (l : list string) (a b : string) :
  last_two l = Some (a, b) -> (List.length l <? 2)%nat = false /\ last l = Some b.
Proof.
  unfold last_two. destruct (rev l) as [|y [|x r]] eqn:E; try discriminate.
  intros H. injection H as <- <-.
  assert (Hl : l = ((rev r ++ [x]) ++ [y])%list).
  { rewrite <- (rev_involutive l), E. simpl. reflexivity. }
  rewrite Hl. split.
  - apply Nat.ltb_ge. rewrite !length_app. simpl. lia.
  - apply last_snoc.
Qed.

(** what one description costs and gives *)
Lemma single_table_info_described (self : SQLAgent) (table : Identifier) (w w1 : World)
    (integration table_name : string) (columns : list Column) (e : Engine)
    (sample : string) :
  last_two (parts table) = Some (integration, table_name) ->
  get_table_columns integration table_name (engine w) = (Ok columns, e) ->
  _get_sample_rows self (to_string reserved table) (map col_name columns)
    (set_datahub w e) = (Ok sample, w1) ->
  _get_single_table_info self table w
  = (Ok (description_text self table_name (to_string reserved table) columns sample), w1).
Proof.
  intros Hlast Hcols Hsample. unfold _get_single_table_info.
  destruct (last_two_length _ _ _ Hlast) as [-> _]. rewrite Hlast.
  cbv zeta. unfold bind, run_datahub. rewrite Hcols, Hsample. reflexivity.
Qed.

Lemma describes_all_length (self : SQLAgent) (tables : list Identifier) (w w' : World)
    (infos : list string) :
  describes_all self tables w infos w' -> List.length infos = List.length tables.
Proof. induction 1; simpl; congruence. Qed.

(** the loop of [_fetch_table_info] over tables that are all described *)
Lemma fetch_loop_described (self : SQLAgent) (tables : list Identifier) (w w' : World)
    (infos : list string) (acc : dict string) :
  describes_all self tables w infos w' ->
  for_each tables
    (fun tables_info table =>
       bind (_get_single_table_info self table) (fun info =>
       match last (parts table) with
       | None => raise (Exn IndexError "list index out of range")
       | Some name => ret (dict_set tables_info name info)
       end))
    acc w
  = (Ok (fold_left (fun tables_info ti =>
                      dict_set tables_info (simple_name (fst ti)) (snd ti))
                   (combine tables infos) acc), w').
Proof.
  intros H. revert acc. induction H as [w|table tables w integration table_name columns e
                                          sample w1 infos w2 Hlast Hcols Hsample _ IH];
    intros acc; [reflexivity|].
  cbn [for_each combine fold_left]. unfold bind at 1. unfold bind at 1.
  rewrite (single_table_info_described _ _ _ _ _ _ _ _ _ Hlast Hcols Hsample).
  destruct (last_two_length _ _ _ Hlast) as [_ Hl]. rewrite Hl. unfold ret at 1.
  unfold simple_name. cbn [fst snd]. rewrite Hl. cbn [default].
  apply IH.
Qed.

(** the fetch, when every requested name resolves and every resolved table
    is described *)
Lemma fetch_table_info_described (self : SQLAgent) (names : list string) (w w0 w1 : World)
    (usable : PyObj) (catalog entries : list Identifier) (infos : list string) :
  get_usable_table_names self w = (Ok usable, w0) ->
  rmapM of_path_str (obj_iter usable) = Ok catalog ->
  _resolve_table_names names catalog = Ok entries ->
  describes_all self entries w0 infos w1 ->
  _fetch_table_info self (Some names) w = (Ok (collect entries infos), w1).
Proof.
  intros Husable Hcatalog Hresolve Hdesc. unfold _fetch_table_info.
  unfold bind at 1. rewrite Husable. unfold bind at 1, lift at 1. rewrite Hcatalog.
  unfold bind at 1, lift at 1. rewrite Hresolve.
  apply (fetch_loop_described _ _ _ _ _ [] Hdesc).
Qed.

(** ** Distinct simple names *)

Lemma dict_set_new {V} (d : dict V) (k : string) (v : V) :
  ~ In k (dict_keys d) -> dict_set d k v = (d ++ [(k, v)])%list.
Proof.
  induction d as [|[k' v'] d IH]; simpl; intros Hk; [reflexivity|].
  destruct (String.eqb_spec k' k) as [->|Hne]; [exfalso; auto|].
  rewrite IH by auto. reflexivity.
Qed.

Lemma collect_distinct (tables : list Identifier) (infos : list string) (acc : dict string) :
  List.length infos = List.length tables ->
  List.NoDup (dict_keys acc ++ map simple_name tables) ->
  fold_left (fun tables_info ti => dict_set tables_info (simple_name (fst ti)) (snd ti))
            (combine tables infos) acc
  = (acc ++ combine (map simple_name tables) infos)%list.
Proof.
  revert infos acc. induction tables as [|t tables IH]; intros infos acc Hlen Hnd.
  - simpl. rewrite app_nil_r. reflexivity.
  - destruct infos as [|info infos]; [discriminate|]. simpl in Hlen.
    cbn [combine fold_left map fst snd]. cbn [map] in Hnd.
    assert (Hnew : ~ In (simple_name t) (dict_keys acc)).
    { intros Hin. apply NoDup_remove_2 in Hnd. apply Hnd.
      apply in_or_app. left. exact Hin. }
    rewrite (dict_set_new _ _ _ Hnew). rewrite IH.
    + rewrite <- app_assoc. reflexivity.
    + lia.
    + unfold dict_keys in *. rewrite map_app. simpl. rewrite <- app_assoc. exact Hnd.
Qed.

Lemma combine_fst_snd {A B} (l : list A) (l' : list B) :
  List.length l = List.length l' ->
  map fst (combine l l') = l /\ map snd (combine l l') = l'.
Proof.
  revert l'. induction l as [|x l IH]; intros [|y l'] H; try discriminate; simpl.
  - split; reflexivity.
  - injection H as H. destruct (IH _ H) as [-> ->]. split; reflexivity.
Qed.

Lemma collect_values_distinct (tables : list Identifier) (infos : list string) :
  List.length infos = List.length tables ->
  List.NoDup (map simple_name tables) ->
  dict_values (collect tables infos) = infos
  /\ dict_keys (collect tables infos) = map simple_name tables.
Proof.
  intros Hlen Hnd. unfold collect. rewrite collect_distinct by assumption.
  unfold dict_values, dict_keys. simpl.
  destruct (combine_fst_snd (map simple_name tables) infos) as [Hk Hv];
    [rewrite length_map; lia|].
  split; assumption.
Qed.

(** C3 as amended.  When the value cached under the computed key lacks one
    of the requested names, [get_table_info] serves nothing of it and fetches
    anew: with the usable tables as catalog, every requested name is
    resolved, and every resolved table is described in turn, its columns
    read from the data hub and its rows sampled.  Once all that has
    returned, the text is the join of the fresh mapping alone, from simple
    table name to description, and this mapping is stored under the key.
    The mapping has one description per simple name: when the resolved
    tables have distinct simple names it holds the descriptions of all of
    them, in the order requested. *)
Theorem C3_partial_hit_fetches_every_requested_table
    (self : SQLAgent) (w w0 w1 : World) (names : list string) (key : string) (o : PyObj)
    (usable : PyObj) (catalog entries : list Identifier) (infos : list string) :
  _generate_cache_key self (Some names) w = (Ok key, w) ->
  stored w key = Some o ->
  Exists (fun name => obj_has o name = false) names ->
  get_usable_table_names self w = (Ok usable, w0) ->
  rmapM of_path_str (obj_iter usable) = Ok catalog ->
  _resolve_table_names names catalog = Ok entries ->
  describes_all self entries w0 infos w1 ->
  exists w',
    get_table_info self (Some names) w
    = (Ok (join (nl +:+ nl) (dict_values (collect entries infos))), w')
    /\ stored w' key = Some (ODict (collect entries infos))
    /\ cache_set key (ODict (collect entries infos)) w1 = (Ok tt, w')
    /\ List.length entries = List.length names
    /\ List.length infos = List.length names
    /\ (List.NoDup (map simple_name entries) ->
        dict_values (collect entries infos) = infos
        /\ dict_keys (collect entries infos) = map simple_name entries).
Proof.
  intros Hkey Hst Hex Husable Hcatalog Hresolve Hdesc.
  pose proof (CacheFacts.partial_hit_renders_the_fetch _ _ _ _ _ Hkey Hst Hex) as H.
  rewrite (fetch_table_info_described _ _ _ _ _ _ _ _ _ Husable Hcatalog Hresolve Hdesc)
    in H.
  destruct H as (w' & Hget & Hstored & Hset).
  pose proof (Resolver.resolve_names_complete _ _ _ Hresolve) as Hlen.
  pose proof (describes_all_length _ _ _ _ _ Hdesc) as Hlen'.
  exists w'. repeat split; try assumption; try congruence.
  - apply collect_values_distinct; assumption.
  - apply collect_values_distinct; assumption.
Qed.

End Generic.

Import Toy.

(** C3, as stated, fails: two requested tables with one simple name give a
    mapping with one key, so the text returned after the partial hit holds
    the description of one of the two requested tables, the later. *)
Lemma C3_same_simple_name_gives_one_description :
  let self := __init__ "shop" (Some ["shop.orders"; "archive.orders"]) None 3 in
  let names := ["shop.orders"; "archive.orders"] in
  let sample := nl +:+ "1" +:+ tab +:+ "a" +:+ nl +:+ "2" +:+ tab +:+ "b" in
  let text := description_text self "orders" "archive.orders" (toy_columns shop) sample in
  _generate_cache_key self (Some names) stale_orders = (Ok both_orders_key, stale_orders)
  /\ stored stale_orders both_orders_key = Some (ODict [("orders", "Table named `orders`")])
  /\ obj_has (ODict [("orders", "Table named `orders`")]) "shop.orders" = false
  /\ fst (get_table_info self (Some names) stale_orders) = Ok text
  /\ contains "shop.orders" text = false
  /\ stored (snd (get_table_info self (Some names) stale_orders)) both_orders_key
     = Some (ODict [("orders", text)]).
Proof. cbv zeta. repeat split; vm_compute; reflexivity. Qed.

Lemma C3_witness :
  let self := __init__ "shop" (Some ["shop.orders"; "shop.secrets"]) None 3 in
  let names := ["orders"; "secrets"] in
  let entries := [Ident ["shop"; "orders"]; Ident ["shop"; "secrets"]] in
  let sample := nl +:+ "1" +:+ tab +:+ "a" +:+ nl +:+ "2" +:+ tab +:+ "b" in
  let infos := [description_text self "orders" "shop.orders" (toy_columns shop) sample;
                description_text self "secrets" "shop.secrets" (toy_columns shop) sample] in
  let w1 := snd (_fetch_table_info self (Some names) stale) in
  exists w',
    get_table_info self (Some names) stale
    = (Ok (join (nl +:+ nl) (dict_values (collect entries infos))), w')
    /\ stored w' orders_secrets_key = Some (ODict (collect entries infos))
    /\ cache_set orders_secrets_key (ODict (collect entries infos)) w1 = (Ok tt, w')
    /\ List.length entries = List.length names
    /\ List.length infos = List.length names
    /\ (List.NoDup (map simple_name entries) ->
        dict_values (collect entries infos) = infos
        /\ dict_keys (collect entries infos) = map simple_name entries).
Proof.
  cbv zeta.
  apply (C3_partial_hit_fetches_every_requested_table (C := collaborators)
           (__init__ "shop" (Some ["shop.orders"; "shop.secrets"]) None 3)
           stale stale _ _ _ (ODict [("orders", "Table named `orders`")])
           (OList ["shop.orders"; "shop.secrets"])
           [Ident ["shop"; "orders"]; Ident ["shop"; "secrets"]]).
  - vm_compute. reflexivity.
  - vm_compute. reflexivity.
  - apply Exists_cons_tl, Exists_cons_hd. vm_compute. reflexivity.
  - vm_compute. reflexivity.
  - vm_compute. reflexivity.
  - vm_compute. reflexivity.
  - refine (describes_cons (C := collaborators) _ (Ident ["shop"; "orders"]) _ _ "shop" "orders"
              (toy_columns shop) shop _
              (snd (_get_sample_rows
                      (__init__ "shop" (Some ["shop.orders"; "shop.secrets"]) None 3)
                      "shop.orders" ["id"; "name"] (set_datahub stale shop)))
              _ _ _ _ _ _).
    + reflexivity.
    + reflexivity.
    + vm_compute. reflexivity.
    + refine (describes_cons (C := collaborators) _ (Ident ["shop"; "secrets"]) _ _ "shop" "secrets"
                (toy_columns shop) shop _ _ _ _ _ _ _ _).
      * reflexivity.
      * reflexivity.
      * vm_compute. reflexivity.
      * vm_compute. apply describes_nil.
Defined.

End Refetch.
